(** * reel: PipeWire stream-format negotiation

    Shallow embedding of the two [pipewire_stream_extra.c] files of the
    repository (the broad RGB/BGR profile under [screencapture/] and the
    narrower profile with YUV formats under [screencapture_backends/]).

    Both files are thin C wrappers over libspa's inline helpers
    ([spa_format_parse], [spa_format_video_raw_parse],
    [spa_pod_builder_add_object]).  Module [Spa] models the part of libspa
    those helpers exercise: the POD value tree, the object parser with its
    treatment of choices and optional fields, and the bounded builder.
    Modules [Broad] and [Narrow] then transcribe the two C files. *)

From Stdlib Require Import ZArith List Bool Lia Permutation.
Import ListNotations.
Open Scope Z_scope.

(* ------------------------------------------------------------------ *)
(** ** libspa: identifiers, POD values, parser, builder *)

Module Spa.

(** *** Identifier spaces ([spa/utils/type.h], [spa/param/format.h],
    [spa/param/video/raw.h], [spa/pod/pod.h]) *)

Definition SPA_TYPE_OBJECT_Format : Z := 262147. (* 0x40003 *)
Definition SPA_PARAM_EnumFormat : Z := 3.

Definition SPA_FORMAT_mediaType : Z := 1.
Definition SPA_FORMAT_mediaSubtype : Z := 2.
Definition SPA_FORMAT_VIDEO_format : Z := 131073. (* 0x20001 *)
Definition SPA_FORMAT_VIDEO_modifier : Z := 131074.
Definition SPA_FORMAT_VIDEO_size : Z := 131075.
Definition SPA_FORMAT_VIDEO_framerate : Z := 131076.
Definition SPA_FORMAT_VIDEO_maxFramerate : Z := 131077.
Definition SPA_FORMAT_VIDEO_views : Z := 131078.
Definition SPA_FORMAT_VIDEO_interlaceMode : Z := 131079.
Definition SPA_FORMAT_VIDEO_pixelAspectRatio : Z := 131080.
Definition SPA_FORMAT_VIDEO_multiviewMode : Z := 131081.
Definition SPA_FORMAT_VIDEO_multiviewFlags : Z := 131082.
Definition SPA_FORMAT_VIDEO_chromaSite : Z := 131083.
Definition SPA_FORMAT_VIDEO_colorRange : Z := 131084.
Definition SPA_FORMAT_VIDEO_colorMatrix : Z := 131085.
Definition SPA_FORMAT_VIDEO_transferFunction : Z := 131086.
Definition SPA_FORMAT_VIDEO_colorPrimaries : Z := 131087.

Definition SPA_MEDIA_TYPE_audio : Z := 1.
Definition SPA_MEDIA_TYPE_video : Z := 2.
Definition SPA_MEDIA_SUBTYPE_raw : Z := 1.
Definition SPA_MEDIA_SUBTYPE_dsp : Z := 2.

Definition SPA_VIDEO_FORMAT_I420 : Z := 2.
Definition SPA_VIDEO_FORMAT_YUY2 : Z := 4.
Definition SPA_VIDEO_FORMAT_RGBx : Z := 7.
Definition SPA_VIDEO_FORMAT_BGRx : Z := 8.
Definition SPA_VIDEO_FORMAT_RGBA : Z := 11.
Definition SPA_VIDEO_FORMAT_BGRA : Z := 12.
Definition SPA_VIDEO_FORMAT_RGB : Z := 15.
Definition SPA_VIDEO_FORMAT_BGR : Z := 16.

Definition SPA_CHOICE_None : Z := 0.
Definition SPA_CHOICE_Range : Z := 1.
Definition SPA_CHOICE_Enum : Z := 3.

Definition SPA_VIDEO_FLAG_NONE : Z := 0.
Definition SPA_VIDEO_FLAG_MODIFIER : Z := 4.
Definition SPA_VIDEO_FLAG_MODIFIER_FIXATION_REQUIRED : Z := 8.
Definition SPA_POD_PROP_FLAG_DONT_FIXATE : Z := 16.

Definition ESRCH : Z := 3.
Definition EINVAL : Z := 22.
Definition EPROTO : Z := 71.

(** *** POD values

    A POD is a typed, sized value.  Only the shapes the format helpers
    look at are given their own constructor; every other POD type
    (String, Bytes, Struct, ...) is [Pod_Other], which no collector
    accepts.  A choice carries its kind, its flags and its values, the
    first value being the default (and the only one, once fixated). *)

Local Unset Elimination Schemes.
Inductive spa_pod : Type :=
| Pod_Id (value : Z)
| Pod_Int (value : Z)
| Pod_Long (value : Z)
| Pod_Rectangle (width height : Z)
| Pod_Fraction (num denom : Z)
| Pod_Choice (type flags : Z) (values : list spa_pod)
| Pod_Object (type id : Z) (props : list spa_pod_prop)
| Pod_Other (type body_size : Z)
with spa_pod_prop : Type :=
| Pod_Prop (key flags : Z) (value : spa_pod).
Local Set Elimination Schemes.

Definition prop_key (p : spa_pod_prop) : Z :=
  let 'Pod_Prop k _ _ := p in k.
Definition prop_flags (p : spa_pod_prop) : Z :=
  let 'Pod_Prop _ f _ := p in f.
Definition prop_value (p : spa_pod_prop) : spa_pod :=
  let 'Pod_Prop _ _ v := p in v.

Record spa_rectangle := SPA_RECTANGLE { width : Z; height : Z }.
Record spa_fraction := SPA_FRACTION { num : Z; denom : Z }.

(** *** Object parser ([spa/pod/parser.h]) *)

(** The destination of one parsed field: [SPA_POD_Id(&x)] and friends.
    The setter is the store through the pointer. *)
Inductive collector (S : Type) : Type :=
| Collect_Id (store : Z -> S -> S)
| Collect_Int (store : Z -> S -> S)
| Collect_Long (store : Z -> S -> S)
| Collect_Rectangle (store : spa_rectangle -> S -> S)
| Collect_Fraction (store : spa_fraction -> S -> S).
Arguments Collect_Id {S}.
Arguments Collect_Int {S}.
Arguments Collect_Long {S}.
Arguments Collect_Rectangle {S}.
Arguments Collect_Fraction {S}.

Record parse_arg (S : Type) := Parse_Arg
  { arg_key : Z; arg_optional : bool; arg_collector : collector S }.
Arguments Parse_Arg {S}.
Arguments arg_key {S}.
Arguments arg_optional {S}.
Arguments arg_collector {S}.

(** [SPA_POD_PARSER_COLLECT] guarded by the type test of
    [spa_pod_parser_can_collect]: [None] when the POD is not of the
    collector's type. *)
Definition collect_value {S} (c : collector S) (pod : spa_pod)
  : option (S -> S) :=
  match c, pod with
  | Collect_Id store, Pod_Id v => Some (store v)
  | Collect_Int store, Pod_Int v => Some (store v)
  | Collect_Long store, Pod_Long v => Some (store v)
  | Collect_Rectangle store, Pod_Rectangle w h =>
      Some (store (SPA_RECTANGLE w h))
  | Collect_Fraction store, Pod_Fraction n d =>
      Some (store (SPA_FRACTION n d))
  | _, _ => None
  end.

(** A choice is looked through only when it is of kind
    [SPA_CHOICE_None] (a fixated choice); an enum or range choice cannot
    be collected as a plain value. *)
Definition spa_pod_parser_collect {S} (c : collector S) (pod : spa_pod)
  : option (S -> S) :=
  match pod with
  | Pod_Choice type _ values =>
      if type =? SPA_CHOICE_None then
        match values with
        | child :: _ => collect_value c child
        | [] => None
        end
      else None
  | _ => collect_value c pod
  end.

Fixpoint find_from (key : Z) (i : nat) (l : list spa_pod_prop)
  : option (nat * spa_pod_prop) :=
  match l with
  | [] => None
  | res :: l' =>
      if (key =? 0) || (prop_key res =? key) then Some (i, res)
      else find_from key (S i) l'
  end.

(** [spa_pod_object_find_prop]: search from the property after [start]
    to the end, then wrap around to the part before it. *)
Definition spa_pod_object_find_prop (props : list spa_pod_prop)
           (start : option nat) (key : Z) : option (nat * spa_pod_prop) :=
  let s := match start with Some i => S i | None => O end in
  match find_from key s (skipn s props) with
  | Some r => Some r
  | None => find_from key O (firstn s props)
  end.

(** [spa_pod_parser_getv] inside an object frame.  [prop] is the index of
    the property the previous key was found at.  A missing or mistyped
    mandatory field stops the parse with a negative code; an optional one
    is skipped and its destination left untouched. *)
Fixpoint spa_pod_parser_getv {S} (props : list spa_pod_prop)
         (prop : option nat) (args : list (parse_arg S))
         (count : Z) (st : S) : Z * S :=
  match args with
  | [] => (count, st)
  | a :: args' =>
      if arg_key a =? 0 then (count, st)
      else
        let found := spa_pod_object_find_prop props prop (arg_key a) in
        let prop' := option_map fst found in
        match found with
        | None =>
            if arg_optional a
            then spa_pod_parser_getv props prop' args' count st
            else (- ESRCH, st)
        | Some (_, p) =>
            match spa_pod_parser_collect (arg_collector a) (prop_value p) with
            | Some store =>
                spa_pod_parser_getv props prop' args' (count + 1) (store st)
            | None =>
                if arg_optional a
                then spa_pod_parser_getv props prop' args' count st
                else (- EPROTO, st)
            end
        end
  end.

(** [spa_pod_parse_object(pod, type, NULL, ...)].  A POD that is not an
    object is reported here as -EINVAL; a libspa that bounds-checks the
    top-level POD first reports some of them (those whose body is not a
    multiple of eight bytes) as -EPIPE.  Either way the code is negative,
    and callers in this repository test nothing but its sign. *)
Definition spa_pod_parse_object {S} (pod : spa_pod) (type : Z)
           (args : list (parse_arg S)) (st : S) : Z * S :=
  match pod with
  | Pod_Object otype _ props =>
      if negb (type =? otype) then (- EPROTO, st)
      else spa_pod_parser_getv props None args 0 st
  | _ => (- EINVAL, st)
  end.

(** [spa_format_parse]: both fields are mandatory ids.  The state is the
    pair of out-parameters [( *media_type, *media_subtype)]. *)
Definition spa_format_parse (format : spa_pod) (out : Z * Z) : Z * (Z * Z) :=
  spa_pod_parse_object format SPA_TYPE_OBJECT_Format
    [ Parse_Arg SPA_FORMAT_mediaType false
        (Collect_Id (fun v o => (v, snd o)));
      Parse_Arg SPA_FORMAT_mediaSubtype false
        (Collect_Id (fun v o => (fst o, v))) ]
    out.

(** [struct spa_video_info_raw], restricted to the leading fields; the
    trailing ones (views, interlace mode, colorimetry, ...) are parsed
    below but stored nowhere in this model, as neither C file reads
    them. *)
Record spa_video_info_raw := Build_info
  { format : Z;
    flags : Z;
    modifier : Z;
    size : spa_rectangle;
    framerate : spa_fraction }.

Definition set_format (v : Z) (i : spa_video_info_raw) :=
  Build_info v (flags i) (modifier i) (size i) (framerate i).
Definition set_flags (v : Z) (i : spa_video_info_raw) :=
  Build_info (format i) v (modifier i) (size i) (framerate i).
Definition set_modifier (v : Z) (i : spa_video_info_raw) :=
  Build_info (format i) (flags i) v (size i) (framerate i).
Definition set_size (v : spa_rectangle) (i : spa_video_info_raw) :=
  Build_info (format i) (flags i) (modifier i) v (framerate i).
Definition set_framerate (v : spa_fraction) (i : spa_video_info_raw) :=
  Build_info (format i) (flags i) (modifier i) (size i) v.
Definition not_kept {A} (_ : A) (i : spa_video_info_raw) := i.

Definition video_raw_args : list (parse_arg spa_video_info_raw) :=
  [ Parse_Arg SPA_FORMAT_VIDEO_format true (Collect_Id set_format);
    Parse_Arg SPA_FORMAT_VIDEO_modifier true (Collect_Long set_modifier);
    Parse_Arg SPA_FORMAT_VIDEO_size true (Collect_Rectangle set_size);
    Parse_Arg SPA_FORMAT_VIDEO_framerate true (Collect_Fraction set_framerate);
    Parse_Arg SPA_FORMAT_VIDEO_maxFramerate true (Collect_Fraction not_kept);
    Parse_Arg SPA_FORMAT_VIDEO_views true (Collect_Int not_kept);
    Parse_Arg SPA_FORMAT_VIDEO_interlaceMode true (Collect_Id not_kept);
    Parse_Arg SPA_FORMAT_VIDEO_pixelAspectRatio true
      (Collect_Fraction not_kept);
    Parse_Arg SPA_FORMAT_VIDEO_multiviewMode true (Collect_Id not_kept);
    Parse_Arg SPA_FORMAT_VIDEO_multiviewFlags true (Collect_Id not_kept);
    Parse_Arg SPA_FORMAT_VIDEO_chromaSite true (Collect_Id not_kept);
    Parse_Arg SPA_FORMAT_VIDEO_colorRange true (Collect_Id not_kept);
    Parse_Arg SPA_FORMAT_VIDEO_colorMatrix true (Collect_Id not_kept);
    Parse_Arg SPA_FORMAT_VIDEO_transferFunction true (Collect_Id not_kept);
    Parse_Arg SPA_FORMAT_VIDEO_colorPrimaries true (Collect_Id not_kept) ].

Definition object_props (pod : spa_pod) : list spa_pod_prop :=
  match pod with
  | Pod_Object _ _ props => props
  | _ => []
  end.

(** [spa_format_video_raw_parse]: resets [flags], notes a modifier
    property, then parses every field as optional.  [info] is the
    caller's struct as it stands before the call. *)
Definition spa_format_video_raw_parse (format : spa_pod)
           (info : spa_video_info_raw) : Z * spa_video_info_raw :=
  let info := set_flags SPA_VIDEO_FLAG_NONE info in
  let info :=
    match spa_pod_object_find_prop (object_props format) None
            SPA_FORMAT_VIDEO_modifier with
    | Some (_, mod_prop) =>
        let info := set_flags (Z.lor (flags info) SPA_VIDEO_FLAG_MODIFIER) info in
        if Z.land (prop_flags mod_prop) SPA_POD_PROP_FLAG_DONT_FIXATE
           =? SPA_POD_PROP_FLAG_DONT_FIXATE
        then set_flags (Z.lor (flags info)
                          SPA_VIDEO_FLAG_MODIFIER_FIXATION_REQUIRED) info
        else info
    | None => info
    end in
  spa_pod_parse_object format SPA_TYPE_OBJECT_Format video_raw_args info.

(** [spa_pod_object_fixate] ([spa/pod/iter.h]): every choice-valued
    property not flagged [DONT_FIXATE] becomes a [SPA_CHOICE_None]
    choice, which stands for its first value. *)
Definition fixate_prop (res : spa_pod_prop) : spa_pod_prop :=
  match res with
  | Pod_Prop key pflags (Pod_Choice _ cflags values) =>
      if Z.land pflags SPA_POD_PROP_FLAG_DONT_FIXATE
         =? SPA_POD_PROP_FLAG_DONT_FIXATE
      then res
      else Pod_Prop key pflags (Pod_Choice SPA_CHOICE_None cflags values)
  | _ => res
  end.
Definition spa_pod_object_fixate (pod : spa_pod) : spa_pod :=
  match pod with
  | Pod_Object type id props => Pod_Object type id (map fixate_prop props)
  | _ => pod
  end.

(** *** Builder ([spa/pod/builder.h])

    A builder over a fixed buffer with no overflow callback: [size] is
    the capacity in bytes and [offset] the write position.  Writing past
    the capacity still advances the offset; only the final pointer is
    lost. *)

Record spa_pod_builder := Build_builder
  { builder_size : Z; builder_offset : Z }.

Definition uint32 (z : Z) : Z := z mod 2 ^ 32.
Definition round_up_8 (n : Z) : Z := (n + 7) / 8 * 8.

(** Bytes in the body of a POD as the builder lays it out: a choice is
    its kind and flags, one child header, then the bare values; an
    object is its type and id, then each property (key, flags, value)
    padded to eight bytes. *)
Fixpoint pod_body_size (pod : spa_pod) : Z :=
  match pod with
  | Pod_Id _ | Pod_Int _ => 4
  | Pod_Long _ | Pod_Rectangle _ _ | Pod_Fraction _ _ => 8
  | Pod_Choice _ _ values =>
      16 + (fix values_size (l : list spa_pod) : Z :=
              match l with
              | [] => 0
              | v :: l' => pod_body_size v + values_size l'
              end) values
  | Pod_Object _ _ props =>
      8 + (fix props_size (l : list spa_pod_prop) : Z :=
             match l with
             | [] => 0
             | Pod_Prop _ _ v :: l' =>
                 8 + round_up_8 (8 + pod_body_size v) + props_size l'
             end) props
  | Pod_Other _ n => n
  end.

Definition SPA_POD_SIZE (pod : spa_pod) : Z := 8 + pod_body_size pod.

(** [SPA_POD_Id], [SPA_POD_CHOICE_ENUM_Id(n, ...)],
    [SPA_POD_CHOICE_RANGE_Rectangle] and [SPA_POD_CHOICE_RANGE_Fraction]
    as the values they make the builder write. *)
Definition SPA_POD_Id (v : Z) : spa_pod := Pod_Id v.
Definition SPA_POD_CHOICE_ENUM_Id (n_vals : nat) (vals : list Z) : spa_pod :=
  Pod_Choice SPA_CHOICE_Enum 0 (map Pod_Id (firstn n_vals vals)).
Definition pod_of_rectangle (r : spa_rectangle) : spa_pod :=
  Pod_Rectangle (width r) (height r).
Definition pod_of_fraction (f : spa_fraction) : spa_pod :=
  Pod_Fraction (num f) (denom f).
Definition SPA_POD_CHOICE_RANGE_Rectangle (def min max : spa_rectangle)
  : spa_pod :=
  Pod_Choice SPA_CHOICE_Range 0 (map pod_of_rectangle [def; min; max]).
Definition SPA_POD_CHOICE_RANGE_Fraction (def min max : spa_fraction)
  : spa_pod :=
  Pod_Choice SPA_CHOICE_Range 0 (map pod_of_fraction [def; min; max]).

(** [spa_pod_builder_add_object]: the object with the given properties
    (flags 0), or a null pointer when it does not fit between the
    current offset and the end of the buffer; and the builder
    afterwards.  The frame's body size and the builder's offset are
    32-bit counters; the final bounds test is done in 64 bits.  Offsets
    are multiples of eight, as every builder operation leaves them. *)
Definition spa_pod_builder_add_object (builder : spa_pod_builder)
           (type id : Z) (props : list (Z * spa_pod))
  : option spa_pod * spa_pod_builder :=
  let pod :=
    Pod_Object type id (map (fun kv => Pod_Prop (fst kv) 0 (snd kv)) props) in
  let builder' :=
    Build_builder (builder_size builder)
      (uint32 (builder_offset builder + SPA_POD_SIZE pod)) in
  if builder_offset builder + (8 + uint32 (pod_body_size pod))
     <=? builder_size builder
  then (Some pod, builder')
  else (None, builder').

End Spa.

(* ------------------------------------------------------------------ *)
(** ** Calls that leave the process: libspa parsers and [stderr] *)

Module Trace.
Import Spa.

(** The four [return] statements of [parseStreamFormat], in source
    order. *)
Inductive exit_point : Type :=
| After_header_parse
| After_media_type_check
| After_media_subtype_check
| At_end.

Inductive event : Type :=
| Ev_spa_format_parse
| Ev_spa_format_video_raw_parse
| Ev_fprintf_stderr (width height : Z)
| Ev_return (from : exit_point).

(** A computation together with the calls and the return it made, oldest
    first. *)
Definition Traced (A : Type) : Type := list event * A.

Definition ret {A} (a : A) : Traced A := ([], a).
Definition bind {A B} (m : Traced A) (k : A -> Traced B) : Traced B :=
  let '(t1, a) := m in
  let '(t2, b) := k a in
  (t1 ++ t2, b).
Definition emit {A} (e : event) (a : A) : Traced A := ([e], a).

Definition events {A} (m : Traced A) : list event := fst m.
Definition value {A} (m : Traced A) : A := snd m.

Definition call_spa_format_parse (param : spa_pod) (out : Z * Z)
  : Traced (Z * (Z * Z)) :=
  emit Ev_spa_format_parse (spa_format_parse param out).
Definition call_spa_format_video_raw_parse (param : spa_pod)
           (info : spa_video_info_raw) : Traced (Z * spa_video_info_raw) :=
  emit Ev_spa_format_video_raw_parse (spa_format_video_raw_parse param info).
Definition fprintf_stderr_Dimensions (width height : Z) : Traced unit :=
  emit (Ev_fprintf_stderr width height) tt.
Definition return_from {A} (from : exit_point) (a : A) : Traced A :=
  emit (Ev_return from) a.
End Trace.

Declare Scope traced_scope.
Delimit Scope traced_scope with traced.
Notation "x <- m ;; k" := (Trace.bind m (fun x => k))
  (at level 61, m at next level, right associativity) : traced_scope.
Notation "' pat <- m ;; k" :=
  (Trace.bind m (fun x => match x with pat => k end))
  (at level 61, pat pattern, m at next level, right associativity)
  : traced_scope.

(* ------------------------------------------------------------------ *)
(** ** screencapture/pipewire/pipewire_stream_extra.c *)

Module Broad.
Import Spa Trace.

Inductive SupportedPixelFormat : Type :=
| SUPPORTED_PIXEL_FORMAT_RGBA
| SUPPORTED_PIXEL_FORMAT_RGBX
| SUPPORTED_PIXEL_FORMAT_RGB
| SUPPORTED_PIXEL_FORMAT_BGRA
| SUPPORTED_PIXEL_FORMAT_BGRX
| SUPPORTED_PIXEL_FORMAT_BGR.

(** The enumerators' integer values, in declaration order from 0. *)
Definition enum_value (f : SupportedPixelFormat) : Z :=
  match f with
  | SUPPORTED_PIXEL_FORMAT_RGBA => 0
  | SUPPORTED_PIXEL_FORMAT_RGBX => 1
  | SUPPORTED_PIXEL_FORMAT_RGB => 2
  | SUPPORTED_PIXEL_FORMAT_BGRA => 3
  | SUPPORTED_PIXEL_FORMAT_BGRX => 4
  | SUPPORTED_PIXEL_FORMAT_BGR => 5
  end.

Record StreamFormat := Build_StreamFormat
  { format : SupportedPixelFormat;
    width : Z;
    height : Z;
    padding : Z }.

Definition set_width (v : Z) (r : StreamFormat) :=
  Build_StreamFormat (format r) v (height r) (padding r).
Definition set_height (v : Z) (r : StreamFormat) :=
  Build_StreamFormat (format r) (width r) v (padding r).
Definition set_format (v : SupportedPixelFormat) (r : StreamFormat) :=
  Build_StreamFormat v (width r) (height r) (padding r).

(** The initialiser [{0, 0, 0, 0}]: the enumerator with value 0 is
    [SUPPORTED_PIXEL_FORMAT_RGBA]. *)
Definition result_init : StreamFormat :=
  Build_StreamFormat SUPPORTED_PIXEL_FORMAT_RGBA 0 0 0.

(** The [if] / [else if] chain of lines 63-74.  It has no final [else]:
    when no test fires, [result.format] keeps the value it had. *)
Definition assign_format (info_format : Z) (result : StreamFormat)
  : StreamFormat :=
  if info_format =? SPA_VIDEO_FORMAT_RGB
  then set_format SUPPORTED_PIXEL_FORMAT_RGB result
  else if info_format =? SPA_VIDEO_FORMAT_RGBA
  then set_format SUPPORTED_PIXEL_FORMAT_RGBA result
  else if info_format =? SPA_VIDEO_FORMAT_RGBx
  then set_format SUPPORTED_PIXEL_FORMAT_RGBX result
  else if info_format =? SPA_VIDEO_FORMAT_BGRA
  then set_format SUPPORTED_PIXEL_FORMAT_BGRA result
  else if info_format =? SPA_VIDEO_FORMAT_BGRx
  then set_format SUPPORTED_PIXEL_FORMAT_BGRX result
  else if info_format =? SPA_VIDEO_FORMAT_BGR
  then set_format SUPPORTED_PIXEL_FORMAT_BGR result
  else result.

(** [parseStreamFormat].  [info_raw] is the content of the local
    [struct spa_video_info_raw] when it is declared: the C code gives it
    no initialiser, so whatever the stack holds is an input.  The value
    returned by [spa_format_video_raw_parse] is dropped, as in line 54. *)
Definition parseStreamFormat_traced (param : spa_pod)
           (info_raw : spa_video_info_raw) : Traced StreamFormat :=
  (let result := result_init in
   let media_type := 0 in
   let media_subtype := 0 in
   '(rc, (media_type, media_subtype)) <-
      call_spa_format_parse param (media_type, media_subtype) ;;
   if rc <? 0 then return_from After_header_parse result
   else if negb (media_type =? SPA_MEDIA_TYPE_video)
   then return_from After_media_type_check result
   else if negb (media_subtype =? SPA_MEDIA_SUBTYPE_raw)
   then return_from After_media_subtype_check result
   else
     '(_, info_raw) <- call_spa_format_video_raw_parse param info_raw ;;
     let width := Spa.width (size info_raw) in
     let height := Spa.height (size info_raw) in
     _ <- fprintf_stderr_Dimensions width height ;;
     let result := set_width (Spa.width (size info_raw)) result in
     let result := set_height (Spa.height (size info_raw)) result in
     let result := assign_format (Spa.format info_raw) result in
     return_from At_end result)%traced.

Definition parseStreamFormat (param : spa_pod)
           (info_raw : spa_video_info_raw) : StreamFormat :=
  value (parseStreamFormat_traced param info_raw).

(** [buildPipewireParams]: the pointer returned (null when the builder
    is too small) and the builder afterwards. *)
Definition buildPipewireParams (builder : spa_pod_builder)
  : option spa_pod * spa_pod_builder :=
  spa_pod_builder_add_object builder
    SPA_TYPE_OBJECT_Format SPA_PARAM_EnumFormat
    [ (SPA_FORMAT_mediaType, SPA_POD_Id SPA_MEDIA_TYPE_video);
      (SPA_FORMAT_mediaSubtype, SPA_POD_Id SPA_MEDIA_SUBTYPE_raw);
      (SPA_FORMAT_VIDEO_format,
       SPA_POD_CHOICE_ENUM_Id 6
         [ SPA_VIDEO_FORMAT_RGB; SPA_VIDEO_FORMAT_RGB;
           SPA_VIDEO_FORMAT_RGBA; SPA_VIDEO_FORMAT_RGBx;
           SPA_VIDEO_FORMAT_BGR; SPA_VIDEO_FORMAT_BGRx ]);
      (SPA_FORMAT_VIDEO_size,
       SPA_POD_CHOICE_RANGE_Rectangle (SPA_RECTANGLE 1080 1920)
         (SPA_RECTANGLE 1 1) (SPA_RECTANGLE 4096 4096));
      (SPA_FORMAT_VIDEO_framerate,
       SPA_POD_CHOICE_RANGE_Fraction (SPA_FRACTION 60 1)
         (SPA_FRACTION 0 1) (SPA_FRACTION 1000 1)) ].

End Broad.

(* ------------------------------------------------------------------ *)
(** ** screencapture_backends/pipewire/pipewire_stream_extra.c *)

Module Narrow.
Import Spa Trace.

(** Here the format field is libspa's own [enum spa_video_format]. *)
Record StreamFormat := Build_StreamFormat
  { format : Z;
    width : Z;
    height : Z;
    padding : Z }.

Definition set_width (v : Z) (r : StreamFormat) :=
  Build_StreamFormat (format r) v (height r) (padding r).
Definition set_height (v : Z) (r : StreamFormat) :=
  Build_StreamFormat (format r) (width r) v (padding r).
Definition set_format (v : Z) (r : StreamFormat) :=
  Build_StreamFormat v (width r) (height r) (padding r).

Definition result_init : StreamFormat := Build_StreamFormat 0 0 0 0.

Definition parseStreamFormat_traced (param : spa_pod)
           (info_raw : spa_video_info_raw) : Traced StreamFormat :=
  (let result := result_init in
   let media_type := 0 in
   let media_subtype := 0 in
   '(rc, (media_type, media_subtype)) <-
      call_spa_format_parse param (media_type, media_subtype) ;;
   if rc <? 0 then return_from After_header_parse result
   else if negb (media_type =? SPA_MEDIA_TYPE_video)
   then return_from After_media_type_check result
   else if negb (media_subtype =? SPA_MEDIA_SUBTYPE_raw)
   then return_from After_media_subtype_check result
   else
     '(_, info_raw) <- call_spa_format_video_raw_parse param info_raw ;;
     let width := Spa.width (size info_raw) in
     let height := Spa.height (size info_raw) in
     _ <- fprintf_stderr_Dimensions width height ;;
     let result := set_width (Spa.width (size info_raw)) result in
     let result := set_height (Spa.height (size info_raw)) result in
     let result := set_format (Spa.format info_raw) result in
     return_from At_end result)%traced.

Definition parseStreamFormat (param : spa_pod)
           (info_raw : spa_video_info_raw) : StreamFormat :=
  value (parseStreamFormat_traced param info_raw).

Definition buildPipewireParams (builder : spa_pod_builder)
  : option spa_pod * spa_pod_builder :=
  spa_pod_builder_add_object builder
    SPA_TYPE_OBJECT_Format SPA_PARAM_EnumFormat
    [ (SPA_FORMAT_mediaType, SPA_POD_Id SPA_MEDIA_TYPE_video);
      (SPA_FORMAT_mediaSubtype, SPA_POD_Id SPA_MEDIA_SUBTYPE_raw);
      (SPA_FORMAT_VIDEO_format,
       SPA_POD_CHOICE_ENUM_Id 7
         [ SPA_VIDEO_FORMAT_RGB; SPA_VIDEO_FORMAT_RGB;
           SPA_VIDEO_FORMAT_RGBA; SPA_VIDEO_FORMAT_RGBx;
           SPA_VIDEO_FORMAT_BGRx; SPA_VIDEO_FORMAT_YUY2;
           SPA_VIDEO_FORMAT_I420 ]);
      (SPA_FORMAT_VIDEO_size,
       SPA_POD_CHOICE_RANGE_Rectangle (SPA_RECTANGLE 320 240)
         (SPA_RECTANGLE 1 1) (SPA_RECTANGLE 4096 4096));
      (SPA_FORMAT_VIDEO_framerate,
       SPA_POD_CHOICE_RANGE_Fraction (SPA_FRACTION 25 1)
         (SPA_FRACTION 0 1) (SPA_FRACTION 1000 1)) ].

End Narrow.

(* ------------------------------------------------------------------ *)
(** ** Vocabulary of the negotiation: ranges, offers, responses *)

Module Negotiation.
Import Spa.

(** What an offer is built from: the acceptable formats (first one
    preferred), and a default with inclusive bounds for the frame size
    and for the frame rate. *)
Record CapabilityRange := Build_range
  { formats : list Z;
    rect_default : spa_rectangle;
    rect_min : spa_rectangle;
    rect_max : spa_rectangle;
    rate_default : spa_fraction;
    rate_min : spa_fraction;
    rate_max : spa_fraction }.

(** The values of the enumerated choice: the default, then every
    acceptable format. *)
Definition enum_values (fs : list Z) : list Z :=
  match fs with
  | [] => []
  | preferred :: _ => preferred :: fs
  end.

(** The one call both [buildPipewireParams] functions make, with the
    literals they differ in, and the bounds they share, taken from a
    range.  Neither C function takes a range: this is their common
    pattern, written once so that facts about both can be proved once.
    Only its two instances [broad_range] and [narrow_range] below are
    runs of the code. *)
Definition build_offer (range : CapabilityRange) (builder : spa_pod_builder)
  : option spa_pod * spa_pod_builder :=
  spa_pod_builder_add_object builder
    SPA_TYPE_OBJECT_Format SPA_PARAM_EnumFormat
    [ (SPA_FORMAT_mediaType, SPA_POD_Id SPA_MEDIA_TYPE_video);
      (SPA_FORMAT_mediaSubtype, SPA_POD_Id SPA_MEDIA_SUBTYPE_raw);
      (SPA_FORMAT_VIDEO_format,
       SPA_POD_CHOICE_ENUM_Id (length (enum_values (formats range)))
         (enum_values (formats range)));
      (SPA_FORMAT_VIDEO_size,
       SPA_POD_CHOICE_RANGE_Rectangle (rect_default range)
         (rect_min range) (rect_max range));
      (SPA_FORMAT_VIDEO_framerate,
       SPA_POD_CHOICE_RANGE_Fraction (rate_default range)
         (rate_min range) (rate_max range)) ].

Definition broad_range : CapabilityRange :=
  Build_range
    [ SPA_VIDEO_FORMAT_RGB; SPA_VIDEO_FORMAT_RGBA; SPA_VIDEO_FORMAT_RGBx;
      SPA_VIDEO_FORMAT_BGR; SPA_VIDEO_FORMAT_BGRx ]
    (SPA_RECTANGLE 1080 1920) (SPA_RECTANGLE 1 1) (SPA_RECTANGLE 4096 4096)
    (SPA_FRACTION 60 1) (SPA_FRACTION 0 1) (SPA_FRACTION 1000 1).

Definition narrow_range : CapabilityRange :=
  Build_range
    [ SPA_VIDEO_FORMAT_RGB; SPA_VIDEO_FORMAT_RGBA; SPA_VIDEO_FORMAT_RGBx;
      SPA_VIDEO_FORMAT_BGRx; SPA_VIDEO_FORMAT_YUY2; SPA_VIDEO_FORMAT_I420 ]
    (SPA_RECTANGLE 320 240) (SPA_RECTANGLE 1 1) (SPA_RECTANGLE 4096 4096)
    (SPA_FRACTION 25 1) (SPA_FRACTION 0 1) (SPA_FRACTION 1000 1).

(** The builder can take [n] more bytes. *)
Definition has_room (builder : spa_pod_builder) (n : Z) : Prop :=
  0 <= builder_offset builder /\
  builder_offset builder + n <= builder_size builder.

(** Values of the choice stored under [key] in an object. *)
Definition choice_values (pod : spa_pod) (key : Z) : list spa_pod :=
  match spa_pod_object_find_prop (object_props pod) None key with
  | Some (_, Pod_Prop _ _ (Pod_Choice _ _ values)) => values
  | _ => []
  end.
Definition choice_default (pod : spa_pod) (key : Z) : option spa_pod :=
  hd_error (choice_values pod key).

(** The fixated format object a server sends once it has chosen: plain
    values, no choices left. *)
Definition server_response (id : Z) (pixel_format w h : Z)
           (rate : spa_fraction) : spa_pod :=
  Pod_Object SPA_TYPE_OBJECT_Format id
    [ Pod_Prop SPA_FORMAT_mediaType 0 (Pod_Id SPA_MEDIA_TYPE_video);
      Pod_Prop SPA_FORMAT_mediaSubtype 0 (Pod_Id SPA_MEDIA_SUBTYPE_raw);
      Pod_Prop SPA_FORMAT_VIDEO_format 0 (Pod_Id pixel_format);
      Pod_Prop SPA_FORMAT_VIDEO_size 0 (Pod_Rectangle w h);
      Pod_Prop SPA_FORMAT_VIDEO_framerate 0 (pod_of_fraction rate) ].

(** A (video, raw) object that carries no payload field at all. *)
Definition header_only : spa_pod :=
  Pod_Object SPA_TYPE_OBJECT_Format 4
    [ Pod_Prop SPA_FORMAT_mediaType 0 (Pod_Id SPA_MEDIA_TYPE_video);
      Pod_Prop SPA_FORMAT_mediaSubtype 0 (Pod_Id SPA_MEDIA_SUBTYPE_raw) ].

(** A (video, raw) object whose size is an Int and whose format is a
    Long instead of a Rectangle and an Id. *)
Definition mistyped_payload : spa_pod :=
  Pod_Object SPA_TYPE_OBJECT_Format 4
    [ Pod_Prop SPA_FORMAT_mediaType 0 (Pod_Id SPA_MEDIA_TYPE_video);
      Pod_Prop SPA_FORMAT_mediaSubtype 0 (Pod_Id SPA_MEDIA_SUBTYPE_raw);
      Pod_Prop SPA_FORMAT_VIDEO_format 0 (Pod_Long 12);
      Pod_Prop SPA_FORMAT_VIDEO_size 0 (Pod_Int 1920) ].

Definition tagged (media_type media_subtype : Z) : spa_pod :=
  Pod_Object SPA_TYPE_OBJECT_Format 4
    [ Pod_Prop SPA_FORMAT_mediaType 0 (Pod_Id media_type);
      Pod_Prop SPA_FORMAT_mediaSubtype 0 (Pod_Id media_subtype) ].

(** Some stack content for the uninitialised [info_raw]. *)
Definition stack_zero : spa_video_info_raw :=
  Build_info 0 0 0 (SPA_RECTANGLE 0 0) (SPA_FRACTION 0 0).
Definition stack_junk : spa_video_info_raw :=
  Build_info 12 0 0 (SPA_RECTANGLE 57005 48879) (SPA_FRACTION 7 9).

(** The object both offers are instances of. *)
Definition offer_shape (values : list Z) (size_default : spa_rectangle)
           (rate_default : spa_fraction) : spa_pod :=
  Pod_Object SPA_TYPE_OBJECT_Format SPA_PARAM_EnumFormat
    [ Pod_Prop SPA_FORMAT_mediaType 0 (Pod_Id SPA_MEDIA_TYPE_video);
      Pod_Prop SPA_FORMAT_mediaSubtype 0 (Pod_Id SPA_MEDIA_SUBTYPE_raw);
      Pod_Prop SPA_FORMAT_VIDEO_format 0
        (Pod_Choice SPA_CHOICE_Enum 0 (map Pod_Id values));
      Pod_Prop SPA_FORMAT_VIDEO_size 0
        (Pod_Choice SPA_CHOICE_Range 0
           [ pod_of_rectangle size_default;
             Pod_Rectangle 1 1; Pod_Rectangle 4096 4096 ]);
      Pod_Prop SPA_FORMAT_VIDEO_framerate 0
        (Pod_Choice SPA_CHOICE_Range 0
           [ pod_of_fraction rate_default;
             Pod_Fraction 0 1; Pod_Fraction 1000 1 ]) ].

(** The identifiers tested by the chain in the broad parser. *)
Definition mapped_ids : list Z :=
  [ SPA_VIDEO_FORMAT_RGB; SPA_VIDEO_FORMAT_RGBA; SPA_VIDEO_FORMAT_RGBx;
    SPA_VIDEO_FORMAT_BGRA; SPA_VIDEO_FORMAT_BGRx; SPA_VIDEO_FORMAT_BGR ].

(** The chain has an entry for [id] when it assigns one fixed enumerator
    whatever the result held before. *)
Definition has_entry (id : Z) (e : Broad.SupportedPixelFormat) : Prop :=
  forall result, Broad.assign_format id result = Broad.set_format e result.

End Negotiation.

(* ------------------------------------------------------------------ *)
(** ** bindings/spa/wrapper.c *)

Module Wrapper.
Import Spa.

(** [_spa_format_parse]: the inline helper, un-inlined.  [media_type] and
    [media_subtype] are what the two pointers hold at the call; the pair
    returned next to the code is what they hold afterwards. *)
Definition _spa_format_parse (format : spa_pod)
           (media_type media_subtype : Z) : Z * (Z * Z) :=
  spa_format_parse format (media_type, media_subtype).

End Wrapper.

(* ------------------------------------------------------------------ *)
(** ** Objects seen as key-value maps *)

Module Object.
Import Spa.

Definition keys (props : list spa_pod_prop) : list Z := map prop_key props.

(** The first property stored under [key], if any. *)
Definition lookup (props : list spa_pod_prop) (key : Z)
  : option spa_pod_prop :=
  find (fun p => prop_key p =? key) props.

End Object.

(* ------------------------------------------------------------------ *)
(** ** Properties *)

Import Spa Trace Negotiation.

(** *** The decoder, gate by gate *)

(** Where a parse returns from, given what the header parse reported. *)
Definition exit_of (rc mt ms : Z) : exit_point :=
  if rc <? 0 then After_header_parse
  else if negb (mt =? SPA_MEDIA_TYPE_video) then After_media_type_check
  else if negb (ms =? SPA_MEDIA_SUBTYPE_raw) then After_media_subtype_check
  else At_end.

Ltac unfold_traced :=
  unfold Broad.parseStreamFormat_traced, Narrow.parseStreamFormat_traced,
    call_spa_format_parse, call_spa_format_video_raw_parse,
    fprintf_stderr_Dimensions, return_from,
    Trace.bind, Trace.emit, Trace.ret.

Ltac split_gates rc mt ms :=
  unfold exit_of;
  destruct (rc <? 0); [reflexivity|];
  destruct (mt =? SPA_MEDIA_TYPE_video); [|reflexivity];
  destruct (ms =? SPA_MEDIA_SUBTYPE_raw); [|reflexivity].

Lemma broad_traced_cases (param : spa_pod) (g : spa_video_info_raw)
      (rc mt ms : Z) :
  spa_format_parse param (0, 0) = (rc, (mt, ms)) ->
  Broad.parseStreamFormat_traced param g =
    match exit_of rc mt ms with
    | At_end =>
        let info := snd (spa_format_video_raw_parse param g) in
        ([ Ev_spa_format_parse; Ev_spa_format_video_raw_parse;
           Ev_fprintf_stderr (width (size info)) (height (size info));
           Ev_return At_end ],
         Broad.assign_format (format info)
           (Broad.Build_StreamFormat Broad.SUPPORTED_PIXEL_FORMAT_RGBA
              (width (size info)) (height (size info)) 0))
    | gate => ([Ev_spa_format_parse; Ev_return gate], Broad.result_init)
    end.
Proof.
  intros Hhdr. unfold_traced. rewrite Hhdr.
  split_gates rc mt ms.
  destruct (spa_format_video_raw_parse param g) as [rc' info].
  reflexivity.
Qed.

Lemma narrow_traced_cases (param : spa_pod) (g : spa_video_info_raw)
      (rc mt ms : Z) :
  spa_format_parse param (0, 0) = (rc, (mt, ms)) ->
  Narrow.parseStreamFormat_traced param g =
    match exit_of rc mt ms with
    | At_end =>
        let info := snd (spa_format_video_raw_parse param g) in
        ([ Ev_spa_format_parse; Ev_spa_format_video_raw_parse;
           Ev_fprintf_stderr (width (size info)) (height (size info));
           Ev_return At_end ],
         Narrow.Build_StreamFormat (format info)
           (width (size info)) (height (size info)) 0)
    | gate => ([Ev_spa_format_parse; Ev_return gate], Narrow.result_init)
    end.
Proof.
  intros Hhdr. unfold_traced. rewrite Hhdr.
  split_gates rc mt ms.
  destruct (spa_format_video_raw_parse param g) as [rc' info].
  reflexivity.
Qed.

Lemma exit_of_header_failed (rc mt ms : Z) :
  rc < 0 -> exit_of rc mt ms = After_header_parse.
Proof.
  intros H. unfold exit_of. apply Z.ltb_lt in H. now rewrite H.
Qed.

Lemma exit_of_wrong_media_type (rc mt ms : Z) :
  0 <= rc -> mt <> SPA_MEDIA_TYPE_video ->
  exit_of rc mt ms = After_media_type_check.
Proof.
  intros Hrc Hmt. unfold exit_of.
  apply Z.ltb_ge in Hrc. apply Z.eqb_neq in Hmt. now rewrite Hrc, Hmt.
Qed.

Lemma exit_of_wrong_media_subtype (rc ms : Z) :
  0 <= rc -> ms <> SPA_MEDIA_SUBTYPE_raw ->
  exit_of rc SPA_MEDIA_TYPE_video ms = After_media_subtype_check.
Proof.
  intros Hrc Hms. unfold exit_of.
  apply Z.ltb_ge in Hrc. apply Z.eqb_neq in Hms. now rewrite Hrc, Hms.
Qed.

Lemma exit_of_video_raw (rc : Z) :
  0 <= rc ->
  exit_of rc SPA_MEDIA_TYPE_video SPA_MEDIA_SUBTYPE_raw = At_end.
Proof.
  intros Hrc. unfold exit_of. apply Z.ltb_ge in Hrc. now rewrite Hrc.
Qed.

(** Any of the three rejecting situations exits before the end. *)
Lemma exit_of_rejected (rc mt ms : Z) :
  rc < 0 \/ mt <> SPA_MEDIA_TYPE_video \/ ms <> SPA_MEDIA_SUBTYPE_raw ->
  exit_of rc mt ms <> At_end.
Proof.
  intros Hgate. unfold exit_of.
  destruct (Z.ltb_spec rc 0); [discriminate|].
  destruct (Z.eqb_spec mt SPA_MEDIA_TYPE_video); [|discriminate].
  destruct (Z.eqb_spec ms SPA_MEDIA_SUBTYPE_raw); [|discriminate].
  lia.
Qed.

(** *** The format chain of the broad parser *)

Lemma assign_format_unmapped (id : Z) (result : Broad.StreamFormat) :
  ~ In id mapped_ids -> Broad.assign_format id result = result.
Proof.
  intros Hout. unfold Broad.assign_format.
  repeat match goal with
         | |- context [id =? ?c] =>
             destruct (Z.eqb_spec id c) as [-> | _];
             [ exfalso; apply Hout; unfold mapped_ids; cbn; tauto | ]
         end.
  reflexivity.
Qed.

Lemma assign_format_mapped (id : Z) :
  In id mapped_ids -> exists e, has_entry id e.
Proof.
  unfold mapped_ids. cbn [In].
  intros [<- | [<- | [<- | [<- | [<- | [<- | []]]]]]];
    eexists; intros result; reflexivity.
Qed.

Lemma has_entry_mapped (id : Z) (e : Broad.SupportedPixelFormat) :
  has_entry id e -> In id mapped_ids.
Proof.
  intros Hentry.
  destruct (in_dec Z.eq_dec id mapped_ids) as [Hin | Hout]; [exact Hin|].
  exfalso.
  pose proof (Hentry (Broad.Build_StreamFormat
                        Broad.SUPPORTED_PIXEL_FORMAT_RGBA 0 0 0)) as H1.
  pose proof (Hentry (Broad.Build_StreamFormat
                        Broad.SUPPORTED_PIXEL_FORMAT_RGBX 0 0 0)) as H2.
  rewrite assign_format_unmapped in H1 by exact Hout.
  rewrite assign_format_unmapped in H2 by exact Hout.
  unfold Broad.set_format in H1, H2. cbn in H1, H2. congruence.
Qed.

(** *** C1 *)

(** C1, as the code has it: when the three gates pass and the identifier
    the payload parse leaves in [info_raw.format] is none of the six the
    chain tests, the broad parser returns without a fault, with the parsed
    width and height, and with the format field still at its initial value
    0.  The result type has no member for an unsupported format: 0 is the
    enumerator RGBA. *)
Theorem C1_unmapped_id_keeps_initial_format
        (param : spa_pod) (g : spa_video_info_raw) (rc : Z) :
  spa_format_parse param (0, 0)
    = (rc, (SPA_MEDIA_TYPE_video, SPA_MEDIA_SUBTYPE_raw)) ->
  0 <= rc ->
  ~ In (format (snd (spa_format_video_raw_parse param g))) mapped_ids ->
  Broad.parseStreamFormat param g
    = Broad.Build_StreamFormat Broad.SUPPORTED_PIXEL_FORMAT_RGBA
        (width (size (snd (spa_format_video_raw_parse param g))))
        (height (size (snd (spa_format_video_raw_parse param g)))) 0
  /\ Broad.enum_value (Broad.format (Broad.parseStreamFormat param g)) = 0.
Proof.
  intros Hhdr Hrc Hout.
  unfold Broad.parseStreamFormat, Trace.value.
  rewrite (broad_traced_cases _ g _ _ _ Hhdr), (exit_of_video_raw _ Hrc).
  cbn [snd]. rewrite (assign_format_unmapped _ _ Hout).
  split; reflexivity.
Qed.

Lemma C1_unmapped_id_keeps_initial_format_witness :
  Broad.parseStreamFormat
    (server_response 4 SPA_VIDEO_FORMAT_I420 640 480 (SPA_FRACTION 30 1))
    stack_junk
  = Broad.Build_StreamFormat Broad.SUPPORTED_PIXEL_FORMAT_RGBA 640 480 0.
Proof.
  refine (proj1 (C1_unmapped_id_keeps_initial_format
                   (server_response 4 SPA_VIDEO_FORMAT_I420 640 480
                      (SPA_FRACTION 30 1))
                   stack_junk 2 eq_refl _ _)).
  - lia.
  - vm_compute. intuition discriminate.
Defined.

(** C1 as stated fails: a response selecting planar I420, which the chain
    does not test, yields exactly the result of a response selecting RGBA;
    the unsupported identifier is reported as a supported format. *)
Lemma C1_unmapped_id_reads_as_rgba :
  ~ In SPA_VIDEO_FORMAT_I420 mapped_ids /\
  In SPA_VIDEO_FORMAT_RGBA mapped_ids /\
  Broad.parseStreamFormat
    (server_response 4 SPA_VIDEO_FORMAT_I420 640 480 (SPA_FRACTION 30 1))
    stack_junk
  = Broad.parseStreamFormat
      (server_response 4 SPA_VIDEO_FORMAT_RGBA 640 480 (SPA_FRACTION 30 1))
      stack_junk /\
  Broad.format
    (Broad.parseStreamFormat
       (server_response 4 SPA_VIDEO_FORMAT_I420 640 480 (SPA_FRACTION 30 1))
       stack_junk)
  = Broad.SUPPORTED_PIXEL_FORMAT_RGBA.
Proof.
  repeat split.
  - vm_compute. intuition discriminate.
  - vm_compute. tauto.
Qed.

(** *** C2 *)

(** C2, the code at the failing input: on a (video, raw) object whose
    format and size properties have the wrong POD type, the payload parse
    writes neither field, and both parsers return the width and height the
    uninitialised [info_raw] happened to hold (and a format taken from that
    same content), not the zero result they return for a failed header
    parse. *)
Theorem C2_invalid_payload_returns_stack_content (g : spa_video_info_raw) :
  Broad.parseStreamFormat mistyped_payload g
    = Broad.assign_format (format g)
        (Broad.Build_StreamFormat Broad.SUPPORTED_PIXEL_FORMAT_RGBA
           (width (size g)) (height (size g)) 0)
  /\ Narrow.parseStreamFormat mistyped_payload g
     = Narrow.Build_StreamFormat (format g)
         (width (size g)) (height (size g)) 0
  /\ Broad.parseStreamFormat mistyped_payload stack_junk
     = Broad.Build_StreamFormat Broad.SUPPORTED_PIXEL_FORMAT_BGRA
         57005 48879 0
  /\ Broad.parseStreamFormat header_only stack_junk
     = Broad.Build_StreamFormat Broad.SUPPORTED_PIXEL_FORMAT_BGRA
         57005 48879 0.
Proof.
  repeat split.
Qed.

(** *** C3 *)

(** C3, as the code has it: whenever the header parse fails, or the media
    type is not video, or the media subtype is not raw, both parsers return
    the same zero-valued StreamFormat; nothing in the result tells the
    three situations apart. *)
Theorem C3_rejections_return_zero_result
        (param : spa_pod) (g : spa_video_info_raw) (rc mt ms : Z) :
  spa_format_parse param (0, 0) = (rc, (mt, ms)) ->
  rc < 0 \/ mt <> SPA_MEDIA_TYPE_video \/ ms <> SPA_MEDIA_SUBTYPE_raw ->
  Broad.parseStreamFormat param g = Broad.result_init /\
  Narrow.parseStreamFormat param g = Narrow.result_init.
Proof.
  intros Hhdr Hgate.
  unfold Broad.parseStreamFormat, Narrow.parseStreamFormat, Trace.value.
  rewrite (broad_traced_cases _ g _ _ _ Hhdr),
    (narrow_traced_cases _ g _ _ _ Hhdr).
  pose proof (exit_of_rejected _ _ _ Hgate) as Hexit.
  destruct (exit_of rc mt ms); [split; reflexivity .. | contradiction].
Qed.

Lemma C3_rejections_return_zero_result_witness :
  Broad.parseStreamFormat (tagged SPA_MEDIA_TYPE_video SPA_MEDIA_SUBTYPE_dsp)
    stack_junk = Broad.result_init /\
  Narrow.parseStreamFormat (tagged SPA_MEDIA_TYPE_video SPA_MEDIA_SUBTYPE_dsp)
    stack_junk = Narrow.result_init.
Proof.
  apply (C3_rejections_return_zero_result
           (tagged SPA_MEDIA_TYPE_video SPA_MEDIA_SUBTYPE_dsp) stack_junk
           2 SPA_MEDIA_TYPE_video SPA_MEDIA_SUBTYPE_dsp eq_refl).
  right. right. discriminate.
Defined.

(** C3 as stated fails: an (audio, raw) object, a (video, dsp) object and a
    POD that is no object at all (header parse fails) give one and the same
    result, so the wrong-media-type, wrong-subtype and malformed outcomes
    cannot be told apart. *)
Lemma C3_rejections_coincide :
  fst (spa_format_parse (Pod_Int 0) (0, 0)) < 0 /\
  0 <= fst (spa_format_parse
                (tagged SPA_MEDIA_TYPE_audio SPA_MEDIA_SUBTYPE_raw) (0, 0)) /\
  0 <= fst (spa_format_parse
                (tagged SPA_MEDIA_TYPE_video SPA_MEDIA_SUBTYPE_dsp) (0, 0)) /\
  Broad.parseStreamFormat
    (tagged SPA_MEDIA_TYPE_audio SPA_MEDIA_SUBTYPE_raw) stack_junk
  = Broad.parseStreamFormat
      (tagged SPA_MEDIA_TYPE_video SPA_MEDIA_SUBTYPE_dsp) stack_junk /\
  Broad.parseStreamFormat
    (tagged SPA_MEDIA_TYPE_video SPA_MEDIA_SUBTYPE_dsp) stack_junk
  = Broad.parseStreamFormat (Pod_Int 0) stack_junk.
Proof.
  repeat split; vm_compute; congruence.
Qed.

(** *** The encoder *)

Lemma add_object_fst (b : spa_pod_builder) (type id : Z)
      (props : list (Z * spa_pod)) (n : Z) :
  uint32 (pod_body_size
            (Pod_Object type id
               (map (fun kv => Pod_Prop (fst kv) 0 (snd kv)) props))) = n ->
  fst (spa_pod_builder_add_object b type id props)
  = if builder_offset b + (8 + n) <=? builder_size b
    then Some (Pod_Object type id
                 (map (fun kv => Pod_Prop (fst kv) 0 (snd kv)) props))
    else None.
Proof.
  intros <-. unfold spa_pod_builder_add_object. cbv zeta.
  destruct (_ <=? _); reflexivity.
Qed.

Lemma add_object_some (b : spa_pod_builder) (type id : Z)
      (props : list (Z * spa_pod)) (pod : spa_pod) :
  fst (spa_pod_builder_add_object b type id props) = Some pod ->
  pod = Pod_Object type id
          (map (fun kv => Pod_Prop (fst kv) 0 (snd kv)) props).
Proof.
  unfold spa_pod_builder_add_object. cbv zeta.
  destruct (_ <=? _); cbn [fst]; congruence.
Qed.

Lemma broad_is_build_offer (b : spa_pod_builder) :
  Broad.buildPipewireParams b = build_offer broad_range b.
Proof. reflexivity. Qed.

Lemma narrow_is_build_offer (b : spa_pod_builder) :
  Narrow.buildPipewireParams b = build_offer narrow_range b.
Proof. reflexivity. Qed.

Lemma broad_offer_built (b : spa_pod_builder) :
  fst (Broad.buildPipewireParams b)
  = if builder_offset b + 232 <=? builder_size b
    then Some (offer_shape
                 [ SPA_VIDEO_FORMAT_RGB; SPA_VIDEO_FORMAT_RGB;
                   SPA_VIDEO_FORMAT_RGBA; SPA_VIDEO_FORMAT_RGBx;
                   SPA_VIDEO_FORMAT_BGR; SPA_VIDEO_FORMAT_BGRx ]
                 (SPA_RECTANGLE 1080 1920) (SPA_FRACTION 60 1))
    else None.
Proof.
  unfold Broad.buildPipewireParams.
  rewrite (add_object_fst b _ _ _ 224) by reflexivity.
  reflexivity.
Qed.

Lemma narrow_offer_built (b : spa_pod_builder) :
  fst (Narrow.buildPipewireParams b)
  = if builder_offset b + 240 <=? builder_size b
    then Some (offer_shape
                 [ SPA_VIDEO_FORMAT_RGB; SPA_VIDEO_FORMAT_RGB;
                   SPA_VIDEO_FORMAT_RGBA; SPA_VIDEO_FORMAT_RGBx;
                   SPA_VIDEO_FORMAT_BGRx; SPA_VIDEO_FORMAT_YUY2;
                   SPA_VIDEO_FORMAT_I420 ]
                 (SPA_RECTANGLE 320 240) (SPA_FRACTION 25 1))
    else None.
Proof.
  unfold Narrow.buildPipewireParams.
  rewrite (add_object_fst b _ _ _ 232) by reflexivity.
  reflexivity.
Qed.

Lemma room_leb (b : spa_pod_builder) (n m : Z) :
  has_room b n -> m <= n ->
  (builder_offset b + m <=? builder_size b) = true.
Proof.
  intros [_ Hfit] Hle. apply Z.leb_le. lia.
Qed.

(** What the broad parser makes of a server's fixated response. *)
Lemma broad_parse_response (id pixel_format w h : Z) (rate : spa_fraction)
      (g : spa_video_info_raw) :
  Broad.parseStreamFormat (server_response id pixel_format w h rate) g
  = Broad.assign_format pixel_format
      (Broad.Build_StreamFormat Broad.SUPPORTED_PIXEL_FORMAT_RGBA w h 0).
Proof. reflexivity. Qed.

Lemma narrow_parse_response (id pixel_format w h : Z) (rate : spa_fraction)
      (g : spa_video_info_raw) :
  Narrow.parseStreamFormat (server_response id pixel_format w h rate) g
  = Narrow.Build_StreamFormat pixel_format w h 0.
Proof. reflexivity. Qed.

(** Parsing an offer once it is fixated reads back the preferred format
    and the default size, whatever range the offer was built from. *)
Lemma fixated_offer_round_trip (range : CapabilityRange)
      (b : spa_pod_builder) (offer : spa_pod) (g : spa_video_info_raw)
      (preferred : Z) (others : list Z) :
  formats range = preferred :: others ->
  fst (build_offer range b) = Some offer ->
  Broad.parseStreamFormat (spa_pod_object_fixate offer) g
  = Broad.assign_format preferred
      (Broad.Build_StreamFormat Broad.SUPPORTED_PIXEL_FORMAT_RGBA
         (width (rect_default range)) (height (rect_default range)) 0).
Proof.
  intros Hfs Hbuilt. unfold build_offer in Hbuilt.
  apply add_object_some in Hbuilt. subst offer. rewrite Hfs.
  reflexivity.
Qed.

(** *** C4 *)

(** C4: given a builder with 232 free bytes, the broad variant's
    [buildPipewireParams] returns an offer whose format choice has RGB as
    its default and whose size choice has 1080x1920 as its default; and the
    broad parser turns a (video, raw) response selecting BGRA at 1920x1080
    into the StreamFormat (BGRA, 1920, 1080). *)
Theorem C4_broad_offer_and_bgra_response (b : spa_pod_builder) :
  has_room b 232 ->
  exists offer,
    fst (Broad.buildPipewireParams b) = Some offer /\
    choice_default offer SPA_FORMAT_VIDEO_format
      = Some (Pod_Id SPA_VIDEO_FORMAT_RGB) /\
    choice_default offer SPA_FORMAT_VIDEO_size
      = Some (Pod_Rectangle 1080 1920) /\
    forall (id : Z) (rate : spa_fraction) (g : spa_video_info_raw),
      Broad.parseStreamFormat
        (server_response id SPA_VIDEO_FORMAT_BGRA 1920 1080 rate) g
      = Broad.Build_StreamFormat Broad.SUPPORTED_PIXEL_FORMAT_BGRA
          1920 1080 0.
Proof.
  intros Hroom. eexists. split.
  - rewrite broad_offer_built, (room_leb b 232 232 Hroom) by lia.
    reflexivity.
  - repeat split.
Qed.

Lemma C4_broad_offer_and_bgra_response_witness :
  has_room (Build_builder 1024 0) 232 /\
  exists offer,
    fst (Broad.buildPipewireParams (Build_builder 1024 0)) = Some offer /\
    choice_default offer SPA_FORMAT_VIDEO_format
      = Some (Pod_Id SPA_VIDEO_FORMAT_RGB) /\
    choice_default offer SPA_FORMAT_VIDEO_size
      = Some (Pod_Rectangle 1080 1920) /\
    forall (id : Z) (rate : spa_fraction) (g : spa_video_info_raw),
      Broad.parseStreamFormat
        (server_response id SPA_VIDEO_FORMAT_BGRA 1920 1080 rate) g
      = Broad.Build_StreamFormat Broad.SUPPORTED_PIXEL_FORMAT_BGRA
          1920 1080 0.
Proof.
  assert (Hroom : has_room (Build_builder 1024 0) 232)
    by (unfold has_room; cbn; lia).
  split.
  - exact Hroom.
  - exact (C4_broad_offer_and_bgra_response (Build_builder 1024 0) Hroom).
Defined.

(** *** C5 *)

(** C5, as the code has it: parsing the broad offer once it has been
    fixated (each choice reduced to its default, which is how a chosen
    format reaches the parser) yields RGB, the first listed format, at the
    default rectangle 1080x1920. *)
Theorem C5_fixated_offer_round_trip
        (b : spa_pod_builder) (g : spa_video_info_raw) :
  has_room b 232 ->
  exists offer,
    fst (Broad.buildPipewireParams b) = Some offer /\
    Broad.parseStreamFormat (spa_pod_object_fixate offer) g
    = Broad.Build_StreamFormat Broad.SUPPORTED_PIXEL_FORMAT_RGB
        1080 1920 0.
Proof.
  intros Hroom.
  destruct (fst (Broad.buildPipewireParams b)) as [offer|] eqn:Hbuilt.
  - exists offer. split; [reflexivity|].
    rewrite broad_is_build_offer in Hbuilt.
    rewrite (fixated_offer_round_trip broad_range b offer g
               SPA_VIDEO_FORMAT_RGB
               [ SPA_VIDEO_FORMAT_RGBA; SPA_VIDEO_FORMAT_RGBx;
                 SPA_VIDEO_FORMAT_BGR; SPA_VIDEO_FORMAT_BGRx ]
               eq_refl Hbuilt).
    reflexivity.
  - rewrite broad_offer_built, (room_leb b 232 232 Hroom) in Hbuilt by lia.
    discriminate.
Qed.

Lemma C5_fixated_offer_round_trip_witness :
  has_room (Build_builder 1024 0) 232 /\
  exists offer,
    fst (Broad.buildPipewireParams (Build_builder 1024 0)) = Some offer /\
    Broad.parseStreamFormat (spa_pod_object_fixate offer) stack_junk
    = Broad.Build_StreamFormat Broad.SUPPORTED_PIXEL_FORMAT_RGB
        1080 1920 0.
Proof.
  assert (Hroom : has_room (Build_builder 1024 0) 232)
    by (unfold has_room; cbn; lia).
  split.
  - exact Hroom.
  - exact (C5_fixated_offer_round_trip (Build_builder 1024 0) stack_junk
             Hroom).
Defined.

(** C5 as stated fails: the exact offer holds an enum choice and a range
    choice, which the payload parse does not collect; parsed as it is, with
    a zeroed [info_raw], the offer yields (RGBA, 0, 0) and not
    (RGB, 1080, 1920). *)
Lemma C5_exact_offer_does_not_round_trip :
  match fst (Broad.buildPipewireParams (Build_builder 1024 0)) with
  | Some offer =>
      Broad.parseStreamFormat offer stack_zero
      = Broad.Build_StreamFormat Broad.SUPPORTED_PIXEL_FORMAT_RGBA 0 0 0 /\
      Broad.parseStreamFormat offer stack_zero
      <> Broad.Build_StreamFormat Broad.SUPPORTED_PIXEL_FORMAT_RGB
           1080 1920 0
  | None => False
  end.
Proof.
  vm_compute. split; [reflexivity | discriminate].
Qed.

(** *** C6 *)

(** C6: in both parsers the header parse is always the first call, and the
    parse returns at the first gate that is closed, in the order header
    parse, media-type check, media-subtype check: a failed header parse
    returns at once whatever the type fields hold, and a media type other
    than video returns at the media-type check whatever the subtype is.  The
    payload parse (and the log line after it) is called exactly when all
    three gates are open, so an object that is not video never has its
    payload looked at, and yields the zero result. *)
Theorem C6_gates_in_order
        (param : spa_pod) (g : spa_video_info_raw) (rc mt ms : Z) :
  spa_format_parse param (0, 0) = (rc, (mt, ms)) ->
  let info := snd (spa_format_video_raw_parse param g) in
  let trace :=
    if rc <? 0
    then [ Ev_spa_format_parse; Ev_return After_header_parse ]
    else if negb (mt =? SPA_MEDIA_TYPE_video)
    then [ Ev_spa_format_parse; Ev_return After_media_type_check ]
    else if negb (ms =? SPA_MEDIA_SUBTYPE_raw)
    then [ Ev_spa_format_parse; Ev_return After_media_subtype_check ]
    else [ Ev_spa_format_parse; Ev_spa_format_video_raw_parse;
           Ev_fprintf_stderr (width (size info)) (height (size info));
           Ev_return At_end ] in
  events (Broad.parseStreamFormat_traced param g) = trace /\
  events (Narrow.parseStreamFormat_traced param g) = trace /\
  (mt <> SPA_MEDIA_TYPE_video ->
   ~ In Ev_spa_format_video_raw_parse trace /\
   Broad.parseStreamFormat param g = Broad.result_init /\
   Narrow.parseStreamFormat param g = Narrow.result_init).
Proof.
  intros Hhdr info trace.
  unfold Broad.parseStreamFormat, Narrow.parseStreamFormat, Trace.value,
    Trace.events.
  rewrite (broad_traced_cases _ g _ _ _ Hhdr),
    (narrow_traced_cases _ g _ _ _ Hhdr).
  subst info trace. unfold exit_of.
  destruct (rc <? 0).
  - cbn. split; [reflexivity | split; [reflexivity | intros _]].
    repeat split. intros [E | [E | []]]; discriminate.
  - destruct (Z.eqb_spec mt SPA_MEDIA_TYPE_video) as [Hmt | Hmt].
    + destruct (ms =? SPA_MEDIA_SUBTYPE_raw); cbn;
        (split; [reflexivity | split; [reflexivity | intros Hne; contradiction]]).
    + cbn. split; [reflexivity | split; [reflexivity | intros _]].
      repeat split. intros [E | [E | []]]; discriminate.
Qed.

Lemma C6_gates_in_order_witness :
  events (Broad.parseStreamFormat_traced
            (tagged SPA_MEDIA_TYPE_audio SPA_MEDIA_SUBTYPE_raw) stack_junk)
  = [ Ev_spa_format_parse; Ev_return After_media_type_check ] /\
  events (Narrow.parseStreamFormat_traced
            (tagged SPA_MEDIA_TYPE_audio SPA_MEDIA_SUBTYPE_raw) stack_junk)
  = [ Ev_spa_format_parse; Ev_return After_media_type_check ].
Proof.
  pose proof (C6_gates_in_order
                (tagged SPA_MEDIA_TYPE_audio SPA_MEDIA_SUBTYPE_raw)
                stack_junk 2 SPA_MEDIA_TYPE_audio SPA_MEDIA_SUBTYPE_raw
                eq_refl) as [Hbroad [Hnarrow _]].
  split; [exact Hbroad | exact Hnarrow].
Defined.

(** *** C8 *)

(** C8: with room in the builder, both variants return the same object
    shape: tagged (video, raw), an enum choice of format ids, a size range
    bounded by 1x1 and 4096x4096, a frame-rate range bounded by 0/1 and
    1000/1.  They differ in the format list, the default size and the
    default rate, and in nothing else. *)
Theorem C8_offers_share_one_shape (b : spa_pod_builder) :
  has_room b 240 ->
  fst (Broad.buildPipewireParams b)
  = Some (offer_shape
            [ SPA_VIDEO_FORMAT_RGB; SPA_VIDEO_FORMAT_RGB;
              SPA_VIDEO_FORMAT_RGBA; SPA_VIDEO_FORMAT_RGBx;
              SPA_VIDEO_FORMAT_BGR; SPA_VIDEO_FORMAT_BGRx ]
            (SPA_RECTANGLE 1080 1920) (SPA_FRACTION 60 1)) /\
  fst (Narrow.buildPipewireParams b)
  = Some (offer_shape
            [ SPA_VIDEO_FORMAT_RGB; SPA_VIDEO_FORMAT_RGB;
              SPA_VIDEO_FORMAT_RGBA; SPA_VIDEO_FORMAT_RGBx;
              SPA_VIDEO_FORMAT_BGRx; SPA_VIDEO_FORMAT_YUY2;
              SPA_VIDEO_FORMAT_I420 ]
            (SPA_RECTANGLE 320 240) (SPA_FRACTION 25 1)).
Proof.
  intros Hroom.
  rewrite broad_offer_built, narrow_offer_built.
  rewrite (room_leb b 240 232 Hroom), (room_leb b 240 240 Hroom) by lia.
  split; reflexivity.
Qed.

Lemma C8_offers_share_one_shape_witness :
  has_room (Build_builder 240 0) 240 /\
  fst (Broad.buildPipewireParams (Build_builder 240 0))
  = Some (offer_shape
            [ SPA_VIDEO_FORMAT_RGB; SPA_VIDEO_FORMAT_RGB;
              SPA_VIDEO_FORMAT_RGBA; SPA_VIDEO_FORMAT_RGBx;
              SPA_VIDEO_FORMAT_BGR; SPA_VIDEO_FORMAT_BGRx ]
            (SPA_RECTANGLE 1080 1920) (SPA_FRACTION 60 1)).
Proof.
  assert (Hroom : has_room (Build_builder 240 0) 240)
    by (unfold has_room; cbn; lia).
  split.
  - exact Hroom.
  - exact (proj1 (C8_offers_share_one_shape (Build_builder 240 0) Hroom)).
Defined.

(** *** C9 *)

(** C9: every format id listed in the broad offer's enum choice has an
    entry in the broad parser's chain, so a response selecting it is
    decoded to that entry's enumerator; the chain also has an entry for
    BGRA, which the offer does not list. *)
Theorem C9_advertised_formats_have_entries
        (b : spa_pod_builder) (offer : spa_pod) (id : Z) :
  fst (Broad.buildPipewireParams b) = Some offer ->
  In (Pod_Id id) (choice_values offer SPA_FORMAT_VIDEO_format) ->
  (exists e,
      has_entry id e /\
      forall (oid w h : Z) (rate : spa_fraction) (g : spa_video_info_raw),
        Broad.parseStreamFormat (server_response oid id w h rate) g
        = Broad.Build_StreamFormat e w h 0) /\
  has_entry SPA_VIDEO_FORMAT_BGRA Broad.SUPPORTED_PIXEL_FORMAT_BGRA /\
  ~ In (Pod_Id SPA_VIDEO_FORMAT_BGRA)
       (choice_values offer SPA_FORMAT_VIDEO_format).
Proof.
  intros Hbuilt Hin.
  unfold Broad.buildPipewireParams in Hbuilt.
  apply add_object_some in Hbuilt. subst offer.
  repeat split.
  - cbn in Hin.
    destruct Hin as [H | [H | [H | [H | [H | [H | []]]]]]];
      injection H as <-; eexists; (split; [intros result|intros]);
      reflexivity.
  - cbn. intros [H | [H | [H | [H | [H | [H | []]]]]]]; discriminate.
Qed.

Lemma C9_advertised_formats_have_entries_witness :
  In (Pod_Id SPA_VIDEO_FORMAT_BGR)
     (choice_values
        (offer_shape
           [ SPA_VIDEO_FORMAT_RGB; SPA_VIDEO_FORMAT_RGB;
             SPA_VIDEO_FORMAT_RGBA; SPA_VIDEO_FORMAT_RGBx;
             SPA_VIDEO_FORMAT_BGR; SPA_VIDEO_FORMAT_BGRx ]
           (SPA_RECTANGLE 1080 1920) (SPA_FRACTION 60 1))
        SPA_FORMAT_VIDEO_format) /\
  (exists e,
      has_entry SPA_VIDEO_FORMAT_BGR e /\
      forall (oid w h : Z) (rate : spa_fraction) (g : spa_video_info_raw),
        Broad.parseStreamFormat
          (server_response oid SPA_VIDEO_FORMAT_BGR w h rate) g
        = Broad.Build_StreamFormat e w h 0).
Proof.
  assert (Hin : In (Pod_Id SPA_VIDEO_FORMAT_BGR)
                   (choice_values
                      (offer_shape
                         [ SPA_VIDEO_FORMAT_RGB; SPA_VIDEO_FORMAT_RGB;
                           SPA_VIDEO_FORMAT_RGBA; SPA_VIDEO_FORMAT_RGBx;
                           SPA_VIDEO_FORMAT_BGR; SPA_VIDEO_FORMAT_BGRx ]
                         (SPA_RECTANGLE 1080 1920) (SPA_FRACTION 60 1))
                      SPA_FORMAT_VIDEO_format))
    by (cbn; tauto).
  split.
  - exact Hin.
  - exact (proj1 (C9_advertised_formats_have_entries
                    (Build_builder 1024 0) _ SPA_VIDEO_FORMAT_BGR
                    eq_refl Hin)).
Defined.

(** *** C10 *)

(** C10: in the narrow parser, whenever the header parse succeeds with
    media type video and subtype raw, the result's format field is the
    identifier the payload parse left in [info_raw.format], unchanged, next
    to the parsed width and height; no identifier is singled out as
    unsupported. *)
Theorem C10_narrow_copies_format_id
        (param : spa_pod) (g : spa_video_info_raw) (rc : Z) :
  spa_format_parse param (0, 0)
    = (rc, (SPA_MEDIA_TYPE_video, SPA_MEDIA_SUBTYPE_raw)) ->
  0 <= rc ->
  Narrow.parseStreamFormat param g
  = Narrow.Build_StreamFormat
      (format (snd (spa_format_video_raw_parse param g)))
      (width (size (snd (spa_format_video_raw_parse param g))))
      (height (size (snd (spa_format_video_raw_parse param g)))) 0.
Proof.
  intros Hhdr Hrc.
  unfold Narrow.parseStreamFormat, Trace.value.
  rewrite (narrow_traced_cases _ g _ _ _ Hhdr), (exit_of_video_raw _ Hrc).
  reflexivity.
Qed.

Lemma C10_narrow_copies_format_id_witness :
  Narrow.parseStreamFormat
    (server_response 4 SPA_VIDEO_FORMAT_YUY2 320 240 (SPA_FRACTION 25 1))
    stack_junk
  = Narrow.Build_StreamFormat SPA_VIDEO_FORMAT_YUY2 320 240 0.
Proof.
  refine (C10_narrow_copies_format_id
            (server_response 4 SPA_VIDEO_FORMAT_YUY2 320 240
               (SPA_FRACTION 25 1))
            stack_junk 2 eq_refl _).
  lia.
Defined.

(* ------------------------------------------------------------------ *)
(** ** Further properties of the decoder and the encoder *)

Import Object.

(** *** Property search in an object whose keys are distinct *)

Lemma find_from_lookup (key : Z) (i : nat) (l : list spa_pod_prop) :
  key <> 0 -> option_map snd (find_from key i l) = lookup l key.
Proof.
  intros Hkey. apply Z.eqb_neq in Hkey.
  revert i. induction l as [|res l IH]; intros i; [reflexivity|].
  cbn [find_from lookup find]. rewrite Hkey. cbn [orb].
  destruct (prop_key res =? key); [reflexivity | apply IH].
Qed.

Lemma lookup_app (a b : list spa_pod_prop) (key : Z) :
  lookup (a ++ b) key
  = match lookup a key with
    | Some p => Some p
    | None => lookup b key
    end.
Proof.
  unfold lookup. induction a as [|x a IH]; [reflexivity|].
  cbn [app find]. destruct (prop_key x =? key); [reflexivity | exact IH].
Qed.

Lemma lookup_some (l : list spa_pod_prop) (key : Z) (p : spa_pod_prop) :
  lookup l key = Some p -> In p l /\ prop_key p = key.
Proof.
  intros H. apply find_some in H as [Hin Hk].
  split; [exact Hin | now apply Z.eqb_eq].
Qed.

Lemma lookup_none (l : list spa_pod_prop) (key : Z) :
  lookup l key = None <-> ~ In key (keys l).
Proof.
  unfold lookup, keys. induction l as [|x l IH]; cbn [find map In].
  - tauto.
  - destruct (Z.eqb_spec (prop_key x) key) as [E | E].
    + split; [discriminate | intros H; exfalso; apply H; now left].
    + rewrite IH. tauto.
Qed.

Lemma keys_distinct_inj (l : list spa_pod_prop) (p q : spa_pod_prop) :
  NoDup (keys l) -> In p l -> In q l -> prop_key p = prop_key q -> p = q.
Proof.
  unfold keys. induction l as [|x l IH]; cbn [map In]; [tauto|].
  intros Hnd [-> | Hp] [-> | Hq] Hk; apply NoDup_cons_iff in Hnd as [Hx Hnd].
  - reflexivity.
  - exfalso. apply Hx. rewrite Hk. now apply in_map.
  - exfalso. apply Hx. rewrite <- Hk. now apply in_map.
  - now apply IH.
Qed.

Lemma lookup_of_in (l : list spa_pod_prop) (p : spa_pod_prop) :
  NoDup (keys l) -> In p l -> lookup l (prop_key p) = Some p.
Proof.
  intros Hnd Hin.
  destruct (lookup l (prop_key p)) as [q|] eqn:Hq.
  - apply lookup_some in Hq as [Hq Hk]. f_equal.
    now apply (keys_distinct_inj l).
  - apply lookup_none in Hq. exfalso. apply Hq. unfold keys. now apply in_map.
Qed.

Lemma nodup_app_apart (a b : list Z) (x : Z) :
  NoDup (a ++ b) -> In x a -> In x b -> False.
Proof.
  induction a as [|y a IH]; cbn [app In]; [tauto|].
  intros Hnd [-> | Hin] Hb; apply NoDup_cons_iff in Hnd as [Hy Hnd].
  - apply Hy, in_or_app. now right.
  - now apply IH.
Qed.

(** With distinct keys, where the search starts makes no difference to
    the property found. *)
Lemma find_prop_lookup (props : list spa_pod_prop) (start : option nat)
      (key : Z) :
  NoDup (keys props) -> key <> 0 ->
  option_map snd (spa_pod_object_find_prop props start key)
  = lookup props key.
Proof.
  intros Hnd Hkey. unfold spa_pod_object_find_prop.
  set (s := match start with Some i => S i | None => O end).
  pose proof (firstn_skipn s props) as Hsplit.
  set (early := firstn s props) in *. set (late := skipn s props) in *.
  clearbody early late. subst props.
  rewrite lookup_app.
  pose proof (find_from_lookup key s late Hkey) as Hlate.
  pose proof (find_from_lookup key O early Hkey) as Hearly.
  destruct (find_from key s late) as [r|].
  - cbn [option_map] in Hlate |- *. rewrite Hlate.
    destruct (lookup early key) as [q|] eqn:Hq; [|reflexivity].
    exfalso. symmetry in Hlate.
    apply lookup_some in Hq as [Hq Hkq].
    apply lookup_some in Hlate as [Hr Hkr].
    unfold keys in Hnd. rewrite map_app in Hnd.
    apply (nodup_app_apart _ _ key Hnd).
    + rewrite <- Hkq. now apply in_map.
    + rewrite <- Hkr. now apply in_map.
  - rewrite Hearly. cbn [option_map] in Hlate. rewrite <- Hlate.
    now destruct (lookup early key).
Qed.

Lemma find_prop_absent (props : list spa_pod_prop) (start : option nat)
      (key : Z) :
  key <> 0 -> ~ In key (keys props) ->
  spa_pod_object_find_prop props start key = None.
Proof.
  intros Hkey Habsent. unfold spa_pod_object_find_prop.
  set (s := match start with Some i => S i | None => O end).
  pose proof (firstn_skipn s props) as Hsplit.
  apply lookup_none in Habsent. rewrite <- Hsplit, lookup_app in Habsent.
  pose proof (find_from_lookup key s (skipn s props) Hkey) as Hlate.
  pose proof (find_from_lookup key O (firstn s props) Hkey) as Hearly.
  destruct (lookup (firstn s props) key); [discriminate|].
  rewrite Habsent in Hlate.
  destruct (find_from key s (skipn s props)); [discriminate|].
  now destruct (find_from key 0 (firstn s props)).
Qed.

Lemma find_prop_of_in (props : list spa_pod_prop) (start : option nat)
      (p : spa_pod_prop) :
  NoDup (keys props) -> In p props -> prop_key p <> 0 ->
  exists i, spa_pod_object_find_prop props start (prop_key p) = Some (i, p).
Proof.
  intros Hnd Hin Hkey.
  pose proof (find_prop_lookup props start (prop_key p) Hnd Hkey) as H.
  rewrite (lookup_of_in props p Hnd Hin) in H.
  destruct (spa_pod_object_find_prop props start (prop_key p))
    as [[i q]|]; [|discriminate].
  cbn in H. injection H as ->. now exists i.
Qed.

(** Two property lists that give the same answer to every search are
    parsed alike. *)
Lemma getv_same_answers {S : Type} (props props' : list spa_pod_prop)
      (args : list (parse_arg S)) :
  (forall start start' key, key <> 0 ->
     option_map snd (spa_pod_object_find_prop props start key)
     = option_map snd (spa_pod_object_find_prop props' start' key)) ->
  forall prop prop' count st,
    spa_pod_parser_getv props prop args count st
    = spa_pod_parser_getv props' prop' args count st.
Proof.
  intros Hsame.
  induction args as [|a args IH]; intros prop prop' count st; [reflexivity|].
  cbn [spa_pod_parser_getv].
  destruct (Z.eqb_spec (arg_key a) 0) as [_ | Hkey]; [reflexivity|].
  specialize (Hsame prop prop' (arg_key a) Hkey).
  destruct (spa_pod_object_find_prop props prop (arg_key a)) as [[i p]|];
    destruct (spa_pod_object_find_prop props' prop' (arg_key a))
      as [[i' p']|]; cbn in Hsame; try discriminate.
  - injection Hsame as <-.
    destruct (spa_pod_parser_collect (arg_collector a) (prop_value p));
      [apply IH|].
    destruct (arg_optional a); [apply IH | reflexivity].
  - destruct (arg_optional a); [apply IH | reflexivity].
Qed.

Lemma lookup_permutation (props props' : list spa_pod_prop) (key : Z) :
  Permutation props props' -> NoDup (keys props) ->
  lookup props key = lookup props' key.
Proof.
  intros Hperm Hnd.
  assert (Hnd' : NoDup (keys props'))
    by (apply (Permutation_NoDup (l := keys props));
        [now apply Permutation_map | exact Hnd]).
  destruct (lookup props key) as [p|] eqn:Hp.
  - apply lookup_some in Hp as [Hin <-]. symmetry.
    apply lookup_of_in; [exact Hnd'|].
    now apply (Permutation_in _ Hperm).
  - symmetry. apply lookup_none. apply lookup_none in Hp.
    intros Hin. apply Hp. unfold keys in *.
    apply (Permutation_in _ (Permutation_sym (Permutation_map _ Hperm))).
    exact Hin.
Qed.

Lemma parse_object_permutation {S : Type} (type id id' : Z)
      (props props' : list spa_pod_prop) (wanted : Z)
      (args : list (parse_arg S)) (st : S) :
  Permutation props props' -> NoDup (keys props) ->
  spa_pod_parse_object (Pod_Object type id props) wanted args st
  = spa_pod_parse_object (Pod_Object type id' props') wanted args st.
Proof.
  intros Hperm Hnd. cbn [spa_pod_parse_object].
  destruct (negb (wanted =? type)); [reflexivity|].
  apply getv_same_answers. intros start start' key Hkey.
  rewrite (find_prop_lookup props start key Hnd Hkey).
  rewrite (find_prop_lookup props' start' key); [| |exact Hkey].
  - now apply lookup_permutation.
  - apply (Permutation_NoDup (l := keys props));
      [now apply Permutation_map | exact Hnd].
Qed.

(** A condition every store of a parse keeps is kept by the parse. *)
Lemma getv_invariant {S : Type} (P : S -> Prop)
      (props : list spa_pod_prop) (args : list (parse_arg S)) :
  Forall (fun a =>
            forall start i p store st,
              spa_pod_object_find_prop props start (arg_key a) = Some (i, p) ->
              spa_pod_parser_collect (arg_collector a) (prop_value p)
              = Some store ->
              P st -> P (store st)) args ->
  forall prop count st,
    P st -> P (snd (spa_pod_parser_getv props prop args count st)).
Proof.
  induction 1 as [|a args Ha _ IH]; intros prop count st Hst; [exact Hst|].
  cbn [spa_pod_parser_getv].
  destruct (arg_key a =? 0); [exact Hst|].
  destruct (spa_pod_object_find_prop props prop (arg_key a))
    as [[i p]|] eqn:Hfound.
  - destruct (spa_pod_parser_collect (arg_collector a) (prop_value p))
      as [store|] eqn:Hcollect.
    + apply IH. exact (Ha _ _ _ _ _ Hfound Hcollect Hst).
    + destruct (arg_optional a); [now apply IH | exact Hst].
  - destruct (arg_optional a); [now apply IH | exact Hst].
Qed.

Lemma getv_cons_found {S : Type} (props : list spa_pod_prop)
      (prop : option nat) (a : parse_arg S) (args : list (parse_arg S))
      (count : Z) (st : S) (i : nat) (p : spa_pod_prop) (store : S -> S) :
  arg_key a <> 0 ->
  spa_pod_object_find_prop props prop (arg_key a) = Some (i, p) ->
  spa_pod_parser_collect (arg_collector a) (prop_value p) = Some store ->
  spa_pod_parser_getv props prop (a :: args) count st
  = spa_pod_parser_getv props (Some i) args (count + 1) (store st).
Proof.
  intros Hkey Hfound Hcollect. cbn [spa_pod_parser_getv].
  apply Z.eqb_neq in Hkey. rewrite Hkey, Hfound, Hcollect. reflexivity.
Qed.

(** An optional field never stops the parse: the remaining fields are
    parsed, from a state that is the old one or one store away from it. *)
Lemma getv_cons_optional {S : Type} (props : list spa_pod_prop)
      (prop : option nat) (a : parse_arg S) (args : list (parse_arg S))
      (count : Z) (st : S) :
  arg_key a <> 0 -> arg_optional a = true ->
  exists prop' count' st',
    spa_pod_parser_getv props prop (a :: args) count st
    = spa_pod_parser_getv props prop' args count' st' /\
    (st' = st \/
     exists pod store,
       spa_pod_parser_collect (arg_collector a) pod = Some store /\
       st' = store st).
Proof.
  intros Hkey Hopt. cbn [spa_pod_parser_getv].
  apply Z.eqb_neq in Hkey. rewrite Hkey, Hopt.
  destruct (spa_pod_object_find_prop props prop (arg_key a)) as [[i p]|].
  - destruct (spa_pod_parser_collect (arg_collector a) (prop_value p))
      as [store|] eqn:Hcollect.
    + do 3 eexists. split; [reflexivity|]. right. now exists (prop_value p), store.
    + do 3 eexists. split; [reflexivity|]. now left.
  - do 3 eexists. split; [reflexivity|]. now left.
Qed.

(** Reads what a successful collect stored: the collector's own setter
    applied to the value found. *)
Ltac store_cases Hc :=
  unfold spa_pod_parser_collect, collect_value in Hc;
  cbn [arg_collector] in Hc;
  repeat match type of Hc with
         | context [match ?x with _ => _ end] =>
             destruct x; try discriminate Hc
         end;
  injection Hc as <-.

Ltac keeps_field :=
  repeat constructor;
  let Hc := fresh "Hc" in
  intros ? ? ? ? ? _ Hc ?; store_cases Hc; assumption.

Lemma video_raw_parse_reads (id : Z) (props : list spa_pod_prop)
      (g : spa_video_info_raw) (f w h fl fl' : Z) :
  NoDup (keys props) ->
  In (Pod_Prop SPA_FORMAT_VIDEO_format fl (Pod_Id f)) props ->
  In (Pod_Prop SPA_FORMAT_VIDEO_size fl' (Pod_Rectangle w h)) props ->
  format (snd (spa_format_video_raw_parse
                 (Pod_Object SPA_TYPE_OBJECT_Format id props) g)) = f /\
  size (snd (spa_format_video_raw_parse
               (Pod_Object SPA_TYPE_OBJECT_Format id props) g))
  = SPA_RECTANGLE w h.
Proof.
  intros Hnd Hf Hs. unfold spa_format_video_raw_parse. cbv zeta.
  cbn [spa_pod_parse_object object_props]. rewrite Z.eqb_refl. cbn [negb].
  match goal with
  | |- context [spa_pod_parser_getv props None video_raw_args 0 ?i] =>
      generalize i
  end.
  intros info. unfold video_raw_args.
  destruct (find_prop_of_in props None _ Hnd Hf) as [i Hi]; [discriminate|].
  rewrite (getv_cons_found props None _ _ 0 info i
             (Pod_Prop SPA_FORMAT_VIDEO_format fl (Pod_Id f)) (set_format f));
    [| discriminate | exact Hi | reflexivity].
  split.
  - apply (getv_invariant (fun st => format st = f));
      [keeps_field | reflexivity].
  - match goal with
    | |- context [spa_pod_parser_getv props ?pr (?a :: ?rest) ?c ?st] =>
        destruct (getv_cons_optional props pr a rest c st)
          as (prop' & count' & st' & -> & _); [discriminate | reflexivity |]
    end.
    destruct (find_prop_of_in props prop' _ Hnd Hs) as [j Hj]; [discriminate|].
    rewrite (getv_cons_found props prop' _ _ count' st' j
               (Pod_Prop SPA_FORMAT_VIDEO_size fl' (Pod_Rectangle w h))
               (set_size (SPA_RECTANGLE w h)));
      [| discriminate | exact Hj | reflexivity].
    apply (getv_invariant (fun st => size st = SPA_RECTANGLE w h));
      [keeps_field | reflexivity].
Qed.

Lemma format_parse_reads (id : Z) (props : list spa_pod_prop)
      (mt ms fl fl' : Z) (out : Z * Z) :
  NoDup (keys props) ->
  In (Pod_Prop SPA_FORMAT_mediaType fl (Pod_Id mt)) props ->
  In (Pod_Prop SPA_FORMAT_mediaSubtype fl' (Pod_Id ms)) props ->
  spa_format_parse (Pod_Object SPA_TYPE_OBJECT_Format id props) out
  = (2, (mt, ms)).
Proof.
  intros Hnd Ht Hs. unfold spa_format_parse.
  cbn [spa_pod_parse_object]. rewrite Z.eqb_refl. cbn [negb].
  destruct (find_prop_of_in props None _ Hnd Ht) as [i Hi]; [discriminate|].
  rewrite (getv_cons_found props None _ _ 0 out i
             (Pod_Prop SPA_FORMAT_mediaType fl (Pod_Id mt))
             (fun o => (mt, snd o)));
    [| discriminate | exact Hi | reflexivity].
  destruct (find_prop_of_in props (Some i) _ Hnd Hs) as [j Hj];
    [discriminate|].
  rewrite (getv_cons_found props (Some i) _ _ (0 + 1) _ j
             (Pod_Prop SPA_FORMAT_mediaSubtype fl' (Pod_Id ms))
             (fun o => (fst o, ms)));
    [| discriminate | exact Hj | reflexivity].
  reflexivity.
Qed.

Lemma format_parse_permutation (type id id' : Z)
      (props props' : list spa_pod_prop) (out : Z * Z) :
  Permutation props props' -> NoDup (keys props) ->
  spa_format_parse (Pod_Object type id props) out
  = spa_format_parse (Pod_Object type id' props') out.
Proof.
  intros Hperm Hnd. unfold spa_format_parse.
  now apply parse_object_permutation.
Qed.

Lemma video_raw_parse_permutation (type id id' : Z)
      (props props' : list spa_pod_prop) (g : spa_video_info_raw) :
  Permutation props props' -> NoDup (keys props) ->
  spa_format_video_raw_parse (Pod_Object type id props) g
  = spa_format_video_raw_parse (Pod_Object type id' props') g.
Proof.
  intros Hperm Hnd. unfold spa_format_video_raw_parse. cbv zeta.
  cbn [object_props].
  assert (Hnd' : NoDup (keys props'))
    by (apply (Permutation_NoDup (l := keys props));
        [now apply Permutation_map | exact Hnd]).
  assert (Hmod :
            option_map snd (spa_pod_object_find_prop props None
                              SPA_FORMAT_VIDEO_modifier)
            = option_map snd (spa_pod_object_find_prop props' None
                                SPA_FORMAT_VIDEO_modifier)).
  { rewrite !find_prop_lookup by (assumption || discriminate).
    now apply lookup_permutation. }
  destruct (spa_pod_object_find_prop props None SPA_FORMAT_VIDEO_modifier)
    as [[i p]|];
    destruct (spa_pod_object_find_prop props' None SPA_FORMAT_VIDEO_modifier)
      as [[i' p']|]; cbn in Hmod; try discriminate.
  - injection Hmod as <-. now apply parse_object_permutation.
  - now apply parse_object_permutation.
Qed.

Lemma assign_format_geometry (id : Z) (result : Broad.StreamFormat) :
  Broad.width (Broad.assign_format id result) = Broad.width result /\
  Broad.height (Broad.assign_format id result) = Broad.height result /\
  Broad.padding (Broad.assign_format id result) = Broad.padding result.
Proof.
  unfold Broad.assign_format.
  repeat match goal with
         | |- context [if ?b then _ else _] => destruct b
         end; repeat split.
Qed.

(** *** X1 *)

(** X1: on every input and whatever the stack holds, the broad parser
    returns what the narrow parser returns with the format chain applied to
    its format field: same width, height and padding, and the same calls in
    the same order. *)
Theorem X1_broad_is_narrow_then_chain
        (param : spa_pod) (g : spa_video_info_raw) :
  Broad.parseStreamFormat param g
  = Broad.assign_format
      (Narrow.format (Narrow.parseStreamFormat param g))
      (Broad.Build_StreamFormat Broad.SUPPORTED_PIXEL_FORMAT_RGBA
         (Narrow.width (Narrow.parseStreamFormat param g))
         (Narrow.height (Narrow.parseStreamFormat param g))
         (Narrow.padding (Narrow.parseStreamFormat param g))) /\
  events (Broad.parseStreamFormat_traced param g)
  = events (Narrow.parseStreamFormat_traced param g).
Proof.
  destruct (spa_format_parse param (0, 0)) as [rc [mt ms]] eqn:Hhdr.
  unfold Broad.parseStreamFormat, Narrow.parseStreamFormat, Trace.value,
    Trace.events.
  rewrite (broad_traced_cases _ g _ _ _ Hhdr),
    (narrow_traced_cases _ g _ _ _ Hhdr).
  destruct (exit_of rc mt ms); split; reflexivity.
Qed.

(** *** X2 *)

(** X2: the broad decoder is injective on supported responses: two
    fixated (video, raw) responses whose format ids are among the six the
    chain tests and that decode to the same StreamFormat carry the same
    format id, width and height. *)
Theorem X2_supported_responses_decode_apart
        (o1 o2 id1 id2 w1 w2 h1 h2 : Z) (r1 r2 : spa_fraction)
        (g1 g2 : spa_video_info_raw) :
  In id1 mapped_ids -> In id2 mapped_ids ->
  Broad.parseStreamFormat (server_response o1 id1 w1 h1 r1) g1
  = Broad.parseStreamFormat (server_response o2 id2 w2 h2 r2) g2 ->
  id1 = id2 /\ w1 = w2 /\ h1 = h2.
Proof.
  intros H1 H2. rewrite !broad_parse_response. intros Heq.
  pose proof (f_equal Broad.width Heq) as Hw.
  pose proof (f_equal Broad.height Heq) as Hh.
  pose proof (f_equal Broad.format Heq) as Hf.
  rewrite !(proj1 (assign_format_geometry _ _)) in Hw.
  rewrite !(proj1 (proj2 (assign_format_geometry _ _))) in Hh.
  cbn in Hw, Hh. repeat split; [|assumption|assumption].
  unfold mapped_ids in H1, H2. cbn [In] in H1, H2.
  destruct H1 as [<- | [<- | [<- | [<- | [<- | [<- | []]]]]]];
    destruct H2 as [<- | [<- | [<- | [<- | [<- | [<- | []]]]]]];
    solve [reflexivity | discriminate Hf].
Qed.

Lemma X2_supported_responses_decode_apart_witness :
  SPA_VIDEO_FORMAT_BGRx = SPA_VIDEO_FORMAT_BGRx /\ 800 = 800 /\ 600 = 600.
Proof.
  refine (X2_supported_responses_decode_apart
            4 3 SPA_VIDEO_FORMAT_BGRx SPA_VIDEO_FORMAT_BGRx 800 800 600 600
            (SPA_FRACTION 30 1) (SPA_FRACTION 60 1) stack_junk stack_zero
            _ _ eq_refl).
  - unfold mapped_ids. cbn. tauto.
  - unfold mapped_ids. cbn. tauto.
Defined.

(** *** X3 *)

(** X3: when an object's property keys are distinct, neither parser
    depends on the order in which the properties are stored, nor on the
    object's id: any reordering of the same properties under any id gives
    the same result and the same calls. *)
Theorem X3_decoding_ignores_property_order
        (type id id' : Z) (props props' : list spa_pod_prop)
        (g : spa_video_info_raw) :
  Permutation props props' -> NoDup (keys props) ->
  Broad.parseStreamFormat_traced (Pod_Object type id props) g
  = Broad.parseStreamFormat_traced (Pod_Object type id' props') g /\
  Narrow.parseStreamFormat_traced (Pod_Object type id props) g
  = Narrow.parseStreamFormat_traced (Pod_Object type id' props') g.
Proof.
  intros Hperm Hnd. unfold_traced.
  rewrite (format_parse_permutation type id id' props props' _ Hperm Hnd).
  rewrite (video_raw_parse_permutation type id id' props props' g Hperm Hnd).
  split; reflexivity.
Qed.

Lemma X3_decoding_ignores_property_order_witness :
  Broad.parseStreamFormat
    (Pod_Object SPA_TYPE_OBJECT_Format 4
       [ Pod_Prop SPA_FORMAT_VIDEO_size 0 (Pod_Rectangle 800 600);
         Pod_Prop SPA_FORMAT_mediaSubtype 0 (Pod_Id SPA_MEDIA_SUBTYPE_raw);
         Pod_Prop SPA_FORMAT_VIDEO_format 0 (Pod_Id SPA_VIDEO_FORMAT_BGR);
         Pod_Prop SPA_FORMAT_mediaType 0 (Pod_Id SPA_MEDIA_TYPE_video) ])
    stack_junk
  = Broad.parseStreamFormat
      (Pod_Object SPA_TYPE_OBJECT_Format 3
         [ Pod_Prop SPA_FORMAT_mediaType 0 (Pod_Id SPA_MEDIA_TYPE_video);
           Pod_Prop SPA_FORMAT_mediaSubtype 0 (Pod_Id SPA_MEDIA_SUBTYPE_raw);
           Pod_Prop SPA_FORMAT_VIDEO_format 0 (Pod_Id SPA_VIDEO_FORMAT_BGR);
           Pod_Prop SPA_FORMAT_VIDEO_size 0 (Pod_Rectangle 800 600) ])
      stack_junk.
Proof.
  unfold Broad.parseStreamFormat.
  refine (f_equal Trace.value
            (proj1 (X3_decoding_ignores_property_order
                      SPA_TYPE_OBJECT_Format 4 3 _ _ stack_junk _ _))).
  - apply Permutation_sym.
    apply (Permutation_cons_app
             [ Pod_Prop SPA_FORMAT_VIDEO_size 0 (Pod_Rectangle 800 600);
               Pod_Prop SPA_FORMAT_mediaSubtype 0
                 (Pod_Id SPA_MEDIA_SUBTYPE_raw);
               Pod_Prop SPA_FORMAT_VIDEO_format 0
                 (Pod_Id SPA_VIDEO_FORMAT_BGR) ] []).
    cbn [app].
    apply (Permutation_cons_app
             [ Pod_Prop SPA_FORMAT_VIDEO_size 0 (Pod_Rectangle 800 600) ]
             [ Pod_Prop SPA_FORMAT_VIDEO_format 0
                 (Pod_Id SPA_VIDEO_FORMAT_BGR) ]).
    cbn [app].
    apply (Permutation_cons_app
             [ Pod_Prop SPA_FORMAT_VIDEO_size 0 (Pod_Rectangle 800 600) ] []).
    cbn [app]. apply Permutation_refl.
  - unfold keys. cbn.
    repeat (constructor; [cbn; intuition discriminate|]). constructor.
Defined.

(** *** X4 *)

(** X4: a Format object with distinct keys that carries, in any order and
    among any other properties, media type video, media subtype raw, a
    format id and a size rectangle as plain values is decoded to exactly
    that id (through the chain, in the broad parser), width and height,
    whatever the stack held. *)
Theorem X4_complete_object_is_decoded
        (id : Z) (props : list spa_pod_prop) (g : spa_video_info_raw)
        (f w h fl1 fl2 fl3 fl4 : Z) :
  NoDup (keys props) ->
  In (Pod_Prop SPA_FORMAT_mediaType fl1 (Pod_Id SPA_MEDIA_TYPE_video)) props ->
  In (Pod_Prop SPA_FORMAT_mediaSubtype fl2 (Pod_Id SPA_MEDIA_SUBTYPE_raw))
     props ->
  In (Pod_Prop SPA_FORMAT_VIDEO_format fl3 (Pod_Id f)) props ->
  In (Pod_Prop SPA_FORMAT_VIDEO_size fl4 (Pod_Rectangle w h)) props ->
  Broad.parseStreamFormat (Pod_Object SPA_TYPE_OBJECT_Format id props) g
  = Broad.assign_format f
      (Broad.Build_StreamFormat Broad.SUPPORTED_PIXEL_FORMAT_RGBA w h 0) /\
  Narrow.parseStreamFormat (Pod_Object SPA_TYPE_OBJECT_Format id props) g
  = Narrow.Build_StreamFormat f w h 0.
Proof.
  intros Hnd Ht Hs Hf Hz.
  pose proof (format_parse_reads id props _ _ _ _ (0, 0) Hnd Ht Hs) as Hhdr.
  destruct (video_raw_parse_reads id props g f w h _ _ Hnd Hf Hz)
    as [Hformat Hsize].
  unfold Broad.parseStreamFormat, Narrow.parseStreamFormat, Trace.value.
  rewrite (broad_traced_cases _ g _ _ _ Hhdr),
    (narrow_traced_cases _ g _ _ _ Hhdr).
  rewrite (exit_of_video_raw 2) by lia. cbv zeta. cbn [snd].
  rewrite Hformat, Hsize. split; reflexivity.
Qed.

Lemma X4_complete_object_is_decoded_witness :
  Narrow.parseStreamFormat
    (Pod_Object SPA_TYPE_OBJECT_Format 4
       [ Pod_Prop SPA_FORMAT_VIDEO_framerate 0 (Pod_Fraction 30 1);
         Pod_Prop SPA_FORMAT_VIDEO_size 0 (Pod_Rectangle 800 600);
         Pod_Prop SPA_FORMAT_mediaSubtype 0 (Pod_Id SPA_MEDIA_SUBTYPE_raw);
         Pod_Prop SPA_FORMAT_VIDEO_modifier 16 (Pod_Long 0);
         Pod_Prop SPA_FORMAT_VIDEO_format 0 (Pod_Id SPA_VIDEO_FORMAT_YUY2);
         Pod_Prop SPA_FORMAT_mediaType 0 (Pod_Id SPA_MEDIA_TYPE_video) ])
    stack_junk
  = Narrow.Build_StreamFormat SPA_VIDEO_FORMAT_YUY2 800 600 0.
Proof.
  refine (proj2 (X4_complete_object_is_decoded 4 _ stack_junk
                   SPA_VIDEO_FORMAT_YUY2 800 600 0 0 0 0 _ _ _ _ _)).
  - unfold keys. cbn.
    repeat (constructor; [cbn; intuition discriminate|]). constructor.
  - cbn. tauto.
  - cbn. tauto.
  - cbn. tauto.
  - cbn. tauto.
Defined.

(** *** X5 *)

Lemma flags_reset_keeps (props : list spa_pod_prop)
      (g : spa_video_info_raw) (P : spa_video_info_raw -> Prop) :
  (forall v i, P i -> P (set_flags v i)) -> P g ->
  P (let info := set_flags SPA_VIDEO_FLAG_NONE g in
     match spa_pod_object_find_prop props None SPA_FORMAT_VIDEO_modifier with
     | Some (_, mod_prop) =>
         let info :=
           set_flags (Z.lor (flags info) SPA_VIDEO_FLAG_MODIFIER) info in
         if Z.land (prop_flags mod_prop) SPA_POD_PROP_FLAG_DONT_FIXATE
            =? SPA_POD_PROP_FLAG_DONT_FIXATE
         then set_flags (Z.lor (flags info)
                           SPA_VIDEO_FLAG_MODIFIER_FIXATION_REQUIRED) info
         else info
     | None => info
     end).
Proof.
  intros Hkeep Hg. cbv zeta.
  destruct (spa_pod_object_find_prop props None SPA_FORMAT_VIDEO_modifier)
    as [[i p]|]; [|now apply Hkeep].
  destruct (_ =? _); repeat apply Hkeep; exact Hg.
Qed.

Ltac keeps_field_unless_absent :=
  repeat constructor;
  let Hfind := fresh "Hfind" in
  let Hc := fresh "Hc" in
  intros ? ? ? ? ? Hfind Hc ?;
  first [ cbn [arg_key] in Hfind;
          rewrite find_prop_absent in Hfind by (assumption || discriminate);
          discriminate Hfind
        | store_cases Hc; assumption ].

Lemma video_raw_parse_keeps_size (type id : Z) (props : list spa_pod_prop)
      (g : spa_video_info_raw) :
  ~ In SPA_FORMAT_VIDEO_size (keys props) ->
  size (snd (spa_format_video_raw_parse (Pod_Object type id props) g))
  = size g.
Proof.
  intros Habsent.
  assert (Hparse : forall info,
             size info = size g ->
             size (snd (spa_pod_parse_object (Pod_Object type id props)
                         SPA_TYPE_OBJECT_Format video_raw_args info))
             = size g).
  { intros info Hinfo. cbn [spa_pod_parse_object].
    destruct (negb (SPA_TYPE_OBJECT_Format =? type)); [exact Hinfo|].
    apply (getv_invariant (fun st => size st = size g));
      [keeps_field_unless_absent | exact Hinfo]. }
  unfold spa_format_video_raw_parse. cbn [object_props]. cbv zeta.
  apply Hparse.
  apply (flags_reset_keeps props g (fun info => size info = size g));
    [intros v info Hinfo; exact Hinfo | reflexivity].
Qed.

Lemma video_raw_parse_keeps_format (type id : Z) (props : list spa_pod_prop)
      (g : spa_video_info_raw) :
  ~ In SPA_FORMAT_VIDEO_format (keys props) ->
  format (snd (spa_format_video_raw_parse (Pod_Object type id props) g))
  = format g.
Proof.
  intros Habsent.
  assert (Hparse : forall info,
             format info = format g ->
             format (snd (spa_pod_parse_object (Pod_Object type id props)
                         SPA_TYPE_OBJECT_Format video_raw_args info))
             = format g).
  { intros info Hinfo. cbn [spa_pod_parse_object].
    destruct (negb (SPA_TYPE_OBJECT_Format =? type)); [exact Hinfo|].
    apply (getv_invariant (fun st => format st = format g));
      [keeps_field_unless_absent | exact Hinfo]. }
  unfold spa_format_video_raw_parse. cbn [object_props]. cbv zeta.
  apply Hparse.
  apply (flags_reset_keeps props g (fun info => format info = format g));
    [intros v info Hinfo; exact Hinfo | reflexivity].
Qed.

(** X5: when the gates pass on an object that has no size property, both
    parsers return as width and height what the uninitialised [info_raw]
    held; when it has no format property, the format they report is the one
    that content held (through the chain, in the broad parser). *)
Theorem X5_missing_field_comes_from_the_stack
        (type id : Z) (props : list spa_pod_prop)
        (g : spa_video_info_raw) (rc : Z) :
  spa_format_parse (Pod_Object type id props) (0, 0)
    = (rc, (SPA_MEDIA_TYPE_video, SPA_MEDIA_SUBTYPE_raw)) ->
  0 <= rc ->
  (~ In SPA_FORMAT_VIDEO_size (keys props) ->
   Broad.width (Broad.parseStreamFormat (Pod_Object type id props) g)
     = width (size g) /\
   Broad.height (Broad.parseStreamFormat (Pod_Object type id props) g)
     = height (size g) /\
   Narrow.width (Narrow.parseStreamFormat (Pod_Object type id props) g)
     = width (size g) /\
   Narrow.height (Narrow.parseStreamFormat (Pod_Object type id props) g)
     = height (size g)) /\
  (~ In SPA_FORMAT_VIDEO_format (keys props) ->
   Narrow.format (Narrow.parseStreamFormat (Pod_Object type id props) g)
     = format g /\
   Broad.format (Broad.parseStreamFormat (Pod_Object type id props) g)
     = Broad.format (Broad.assign_format (format g) Broad.result_init)).
Proof.
  intros Hhdr Hrc.
  unfold Broad.parseStreamFormat, Narrow.parseStreamFormat, Trace.value.
  rewrite (broad_traced_cases _ g _ _ _ Hhdr),
    (narrow_traced_cases _ g _ _ _ Hhdr), (exit_of_video_raw _ Hrc).
  cbv zeta. cbn [snd]. split.
  - intros Habsent.
    rewrite (proj1 (assign_format_geometry _ _)),
      (proj1 (proj2 (assign_format_geometry _ _))).
    cbn [Broad.width Broad.height Narrow.width Narrow.height].
    rewrite (video_raw_parse_keeps_size type id props g Habsent).
    repeat split.
  - intros Habsent. cbn [Narrow.format].
    rewrite (video_raw_parse_keeps_format type id props g Habsent).
    split; [reflexivity|].
    unfold Broad.assign_format.
    repeat match goal with
           | |- context [if ?b then _ else _] => destruct b
           end; reflexivity.
Qed.

Lemma X5_missing_field_comes_from_the_stack_witness :
  Narrow.width (Narrow.parseStreamFormat header_only stack_junk) = 57005 /\
  Narrow.height (Narrow.parseStreamFormat header_only stack_junk) = 48879.
Proof.
  assert (Hrc : 0 <= 2) by lia.
  assert (Habsent : ~ In SPA_FORMAT_VIDEO_size
                        (keys [ Pod_Prop SPA_FORMAT_mediaType 0
                                  (Pod_Id SPA_MEDIA_TYPE_video);
                                Pod_Prop SPA_FORMAT_mediaSubtype 0
                                  (Pod_Id SPA_MEDIA_SUBTYPE_raw) ]))
    by (cbn; intuition discriminate).
  pose proof (proj1 (X5_missing_field_comes_from_the_stack
                       SPA_TYPE_OBJECT_Format 4
                       [ Pod_Prop SPA_FORMAT_mediaType 0
                           (Pod_Id SPA_MEDIA_TYPE_video);
                         Pod_Prop SPA_FORMAT_mediaSubtype 0
                           (Pod_Id SPA_MEDIA_SUBTYPE_raw) ]
                       stack_junk 2 eq_refl Hrc)
                Habsent) as [_ [_ [Hw Hh]]].
  split; [exact Hw | exact Hh].
Defined.

(** *** X6 *)

Lemma find_prop_present (props : list spa_pod_prop) (start : option nat)
      (key : Z) (i : nat) (p : spa_pod_prop) :
  key <> 0 ->
  spa_pod_object_find_prop props start key = Some (i, p) ->
  In key (keys props).
Proof.
  intros Hkey Hfound.
  destruct (in_dec Z.eq_dec key (keys props)) as [Hin | Hout]; [exact Hin|].
  rewrite (find_prop_absent props start key Hkey Hout) in Hfound.
  discriminate.
Qed.

(** What the header parse can report, and what it leaves alone. *)
Lemma format_parse_outcomes (format : spa_pod) (out : Z * Z) :
  (fst (spa_format_parse format out) = 2 /\
   exists id props,
     format = Pod_Object SPA_TYPE_OBJECT_Format id props /\
     In SPA_FORMAT_mediaType (keys props) /\
     In SPA_FORMAT_mediaSubtype (keys props))
  \/
  (In (fst (spa_format_parse format out)) [- ESRCH; - EINVAL; - EPROTO] /\
   snd (snd (spa_format_parse format out)) = snd out).
Proof.
  destruct format as [v|v|v|w h|n d|t fl vs|t id props|t n];
    try (right; cbn; tauto).
  unfold spa_format_parse. cbn [spa_pod_parse_object].
  destruct (Z.eqb_spec SPA_TYPE_OBJECT_Format t) as [<- | _];
    [|right; cbn; tauto].
  cbn [negb spa_pod_parser_getv arg_key arg_optional arg_collector].
  change (SPA_FORMAT_mediaType =? 0) with false.
  change (SPA_FORMAT_mediaSubtype =? 0) with false. cbv iota.
  destruct (spa_pod_object_find_prop props None SPA_FORMAT_mediaType)
    as [[i p]|] eqn:Htype; [|right; cbn; tauto].
  destruct (spa_pod_parser_collect _ (prop_value p)) as [store|] eqn:Hstore;
    [|right; cbn; tauto].
  cbn [option_map fst].
  destruct (spa_pod_object_find_prop props (Some i) SPA_FORMAT_mediaSubtype)
    as [[j q]|] eqn:Hsub.
  - destruct (spa_pod_parser_collect _ (prop_value q)) as [store'|] eqn:Hs'.
    + left. split; [reflexivity|]. exists id, props. split; [reflexivity|].
      split; [apply (find_prop_present props None _ i p) |
              apply (find_prop_present props (Some i) _ j q)];
        (discriminate || assumption).
    + right. cbn [fst snd]. split; [cbn; tauto|]. now store_cases Hstore.
  - right. cbn [fst snd]. split; [cbn; tauto|]. now store_cases Hstore.
Qed.

(** X6: anything that is not a Format object carrying both a media-type
    and a media-subtype property is rejected by both parsers at the header
    parse: the zero result comes back and the payload is never parsed. *)
Theorem X6_headerless_input_is_rejected
        (param : spa_pod) (g : spa_video_info_raw) :
  ~ (exists id props,
        param = Pod_Object SPA_TYPE_OBJECT_Format id props /\
        In SPA_FORMAT_mediaType (keys props) /\
        In SPA_FORMAT_mediaSubtype (keys props)) ->
  Broad.parseStreamFormat_traced param g
  = ([Ev_spa_format_parse; Ev_return After_header_parse],
     Broad.result_init) /\
  Narrow.parseStreamFormat_traced param g
  = ([Ev_spa_format_parse; Ev_return After_header_parse],
     Narrow.result_init).
Proof.
  intros Hbad.
  destruct (spa_format_parse param (0, 0)) as [rc [mt ms]] eqn:Hhdr.
  assert (Hneg : rc < 0).
  { destruct (format_parse_outcomes param (0, 0)) as [[_ Hgood] | [Hrc _]];
      [contradiction|].
    rewrite Hhdr in Hrc. cbn [fst In] in Hrc.
    destruct Hrc as [<- | [<- | [<- | []]]]; reflexivity. }
  rewrite (broad_traced_cases _ g _ _ _ Hhdr),
    (narrow_traced_cases _ g _ _ _ Hhdr),
    (exit_of_header_failed _ _ _ Hneg).
  split; reflexivity.
Qed.

Lemma X6_headerless_input_is_rejected_witness :
  Broad.parseStreamFormat_traced
    (Pod_Object SPA_TYPE_OBJECT_Format 4
       [ Pod_Prop SPA_FORMAT_mediaType 0 (Pod_Id SPA_MEDIA_TYPE_video);
         Pod_Prop SPA_FORMAT_VIDEO_size 0 (Pod_Rectangle 800 600) ])
    stack_junk
  = ([Ev_spa_format_parse; Ev_return After_header_parse],
     Broad.result_init).
Proof.
  refine (proj1 (X6_headerless_input_is_rejected _ stack_junk _)).
  intros (id & props & Heq & _ & Hsub).
  injection Heq as _ <-. cbn in Hsub. intuition discriminate.
Defined.

(** *** X7 *)

(** X7: [_spa_format_parse] returns 2 or a negative code, never 0 or 1.
    It returns 2 only for a Format object that has both header properties;
    when it fails, the word behind [media_subtype] is left as it was.  On a
    Format object with distinct keys whose media type and media subtype are
    plain ids, it returns 2 and stores exactly those two ids, whatever the
    two words held before. *)
Theorem X7_wrapper_format_parse_result
        (format : spa_pod) (media_type media_subtype : Z) :
  ((fst (Wrapper._spa_format_parse format media_type media_subtype) = 2 /\
    exists id props,
      format = Pod_Object SPA_TYPE_OBJECT_Format id props /\
      In SPA_FORMAT_mediaType (keys props) /\
      In SPA_FORMAT_mediaSubtype (keys props))
   \/
   (fst (Wrapper._spa_format_parse format media_type media_subtype) < 0 /\
    snd (snd (Wrapper._spa_format_parse format media_type media_subtype))
    = media_subtype)) /\
  (forall (id : Z) (props : list spa_pod_prop) (mt ms fl fl' : Z),
      format = Pod_Object SPA_TYPE_OBJECT_Format id props ->
      NoDup (keys props) ->
      In (Pod_Prop SPA_FORMAT_mediaType fl (Pod_Id mt)) props ->
      In (Pod_Prop SPA_FORMAT_mediaSubtype fl' (Pod_Id ms)) props ->
      Wrapper._spa_format_parse format media_type media_subtype
      = (2, (mt, ms))).
Proof.
  unfold Wrapper._spa_format_parse. split.
  - destruct (format_parse_outcomes format (media_type, media_subtype))
      as [Hok | [Hcode Hsub]]; [left; exact Hok | right].
    split; [|exact Hsub].
    cbn [In] in Hcode.
    destruct Hcode as [<- | [<- | [<- | []]]]; reflexivity.
  - intros id props mt ms fl fl' -> Hnd Ht Hs.
    exact (format_parse_reads id props mt ms fl fl'
             (media_type, media_subtype) Hnd Ht Hs).
Qed.

Lemma X7_wrapper_format_parse_result_witness :
  Wrapper._spa_format_parse
    (Pod_Object SPA_TYPE_OBJECT_Format 4
       [ Pod_Prop SPA_FORMAT_mediaSubtype 0 (Pod_Id SPA_MEDIA_SUBTYPE_dsp);
         Pod_Prop SPA_FORMAT_VIDEO_size 0 (Pod_Rectangle 800 600);
         Pod_Prop SPA_FORMAT_mediaType 0 (Pod_Id SPA_MEDIA_TYPE_audio) ])
    7 9
  = (2, (SPA_MEDIA_TYPE_audio, SPA_MEDIA_SUBTYPE_dsp)).
Proof.
  refine (proj2 (X7_wrapper_format_parse_result _ 7 9)
            4 _ SPA_MEDIA_TYPE_audio SPA_MEDIA_SUBTYPE_dsp 0 0
            eq_refl _ _ _).
  - unfold keys. cbn.
    repeat (constructor; [cbn; intuition discriminate|]). constructor.
  - cbn. tauto.
  - cbn. tauto.
Defined.

(** *** X8 *)

Lemma broad_builder_after (b : spa_pod_builder) :
  snd (Broad.buildPipewireParams b)
  = Build_builder (builder_size b) (uint32 (builder_offset b + 232)).
Proof.
  unfold Broad.buildPipewireParams, spa_pod_builder_add_object. cbv zeta.
  destruct (_ <=? _); reflexivity.
Qed.

Lemma narrow_builder_after (b : spa_pod_builder) :
  snd (Narrow.buildPipewireParams b)
  = Build_builder (builder_size b) (uint32 (builder_offset b + 240)).
Proof.
  unfold Narrow.buildPipewireParams, spa_pod_builder_add_object. cbv zeta.
  destruct (_ <=? _); reflexivity.
Qed.

(** X8: [buildPipewireParams] leaves the builder's capacity alone and
    moves its offset past the offer (232 bytes broad, 240 narrow), so in a
    builder with room for two offers a second call, made on the builder the
    first one left, returns the same offer again, and the offset ends two
    offers further. *)
Theorem X8_second_offer_follows_the_first (b : spa_pod_builder) :
  has_room b 480 -> builder_size b < 2 ^ 32 ->
  fst (Broad.buildPipewireParams (snd (Broad.buildPipewireParams b)))
    = fst (Broad.buildPipewireParams b) /\
  fst (Broad.buildPipewireParams b) <> None /\
  snd (Broad.buildPipewireParams (snd (Broad.buildPipewireParams b)))
    = Build_builder (builder_size b) (builder_offset b + 464) /\
  fst (Narrow.buildPipewireParams (snd (Narrow.buildPipewireParams b)))
    = fst (Narrow.buildPipewireParams b) /\
  fst (Narrow.buildPipewireParams b) <> None /\
  snd (Narrow.buildPipewireParams (snd (Narrow.buildPipewireParams b)))
    = Build_builder (builder_size b) (builder_offset b + 480).
Proof.
  intros [Hoff Hfit] Hsize.
  rewrite !broad_builder_after, !narrow_builder_after.
  rewrite !broad_offer_built, !narrow_offer_built.
  cbn [builder_size builder_offset]. unfold uint32.
  rewrite !(Z.mod_small (builder_offset b + 232)) by lia.
  rewrite !(Z.mod_small (builder_offset b + 240)) by lia.
  rewrite !Z.mod_small by lia.
  replace (builder_offset b + 232 + 232 <=? builder_size b) with true
    by (symmetry; apply Z.leb_le; lia).
  replace (builder_offset b + 240 + 240 <=? builder_size b) with true
    by (symmetry; apply Z.leb_le; lia).
  replace (builder_offset b + 232 <=? builder_size b) with true
    by (symmetry; apply Z.leb_le; lia).
  replace (builder_offset b + 240 <=? builder_size b) with true
    by (symmetry; apply Z.leb_le; lia).
  repeat split; try discriminate; f_equal; lia.
Qed.

Lemma X8_second_offer_follows_the_first_witness :
  snd (Broad.buildPipewireParams
         (snd (Broad.buildPipewireParams (Build_builder 1024 0))))
  = Build_builder 1024 464.
Proof.
  assert (Hroom : has_room (Build_builder 1024 0) 480)
    by (unfold has_room; cbn; lia).
  assert (Hsize : builder_size (Build_builder 1024 0) < 2 ^ 32)
    by (cbn; lia).
  exact (proj1 (proj2 (proj2 (X8_second_offer_follows_the_first
                                (Build_builder 1024 0) Hroom Hsize)))).
Defined.

(** *** X9 *)

(** X9: in the narrow variant too, parsing the offer once it is fixated
    reads back the first listed format, the id of RGB, passed through
    unchanged, at the default rectangle 320x240. *)
Theorem X9_narrow_fixated_offer_round_trip
        (b : spa_pod_builder) (g : spa_video_info_raw) :
  has_room b 240 ->
  exists offer,
    fst (Narrow.buildPipewireParams b) = Some offer /\
    Narrow.parseStreamFormat (spa_pod_object_fixate offer) g
    = Narrow.Build_StreamFormat SPA_VIDEO_FORMAT_RGB 320 240 0.
Proof.
  intros Hroom. eexists. split.
  - rewrite narrow_offer_built, (room_leb b 240 240 Hroom) by lia.
    reflexivity.
  - reflexivity.
Qed.

Lemma X9_narrow_fixated_offer_round_trip_witness :
  exists offer,
    fst (Narrow.buildPipewireParams (Build_builder 240 0)) = Some offer /\
    Narrow.parseStreamFormat (spa_pod_object_fixate offer) stack_junk
    = Narrow.Build_StreamFormat SPA_VIDEO_FORMAT_RGB 320 240 0.
Proof.
  assert (Hroom : has_room (Build_builder 240 0) 240)
    by (unfold has_room; cbn; lia).
  exact (X9_narrow_fixated_offer_round_trip (Build_builder 240 0)
           stack_junk Hroom).
Defined.

(** *** X10 *)

(** X10: an offer returned by either [buildPipewireParams], handed back
    unfixated, passes the header parse as (video, raw) with code 2, yet the
    payload parse collects none of its fields: it returns 0 and leaves
    [info_raw] as it was, flags reset apart. *)
Theorem X10_unfixated_offer_yields_header_only
        (b : spa_pod_builder) (offer : spa_pod) (g : spa_video_info_raw) :
  fst (Broad.buildPipewireParams b) = Some offer \/
  fst (Narrow.buildPipewireParams b) = Some offer ->
  spa_format_parse offer (0, 0)
    = (2, (SPA_MEDIA_TYPE_video, SPA_MEDIA_SUBTYPE_raw)) /\
  spa_format_video_raw_parse offer g
    = (0, set_flags SPA_VIDEO_FLAG_NONE g).
Proof.
  intros [Hbuilt | Hbuilt];
    [unfold Broad.buildPipewireParams in Hbuilt
    |unfold Narrow.buildPipewireParams in Hbuilt];
    apply add_object_some in Hbuilt; subst offer; split; reflexivity.
Qed.

Lemma X10_unfixated_offer_yields_header_only_witness :
  spa_format_video_raw_parse
    (offer_shape
       [ SPA_VIDEO_FORMAT_RGB; SPA_VIDEO_FORMAT_RGB;
         SPA_VIDEO_FORMAT_RGBA; SPA_VIDEO_FORMAT_RGBx;
         SPA_VIDEO_FORMAT_BGR; SPA_VIDEO_FORMAT_BGRx ]
       (SPA_RECTANGLE 1080 1920) (SPA_FRACTION 60 1))
    stack_junk
  = (0, set_flags SPA_VIDEO_FLAG_NONE stack_junk).
Proof.
  exact (proj2 (X10_unfixated_offer_yields_header_only
                  (Build_builder 1024 0) _ stack_junk
                  (or_introl eq_refl))).
Defined.

(** *** X11 *)

(** X11: whenever a parse writes its "Dimensions" line, the two numbers
    logged are the width and height of the StreamFormat it returns, in both
    parsers. *)
Theorem X11_logged_dimensions_are_returned
        (param : spa_pod) (g : spa_video_info_raw) (w h : Z) :
  In (Ev_fprintf_stderr w h)
     (events (Broad.parseStreamFormat_traced param g)) ->
  Broad.width (Broad.parseStreamFormat param g) = w /\
  Broad.height (Broad.parseStreamFormat param g) = h /\
  Narrow.width (Narrow.parseStreamFormat param g) = w /\
  Narrow.height (Narrow.parseStreamFormat param g) = h.
Proof.
  destruct (spa_format_parse param (0, 0)) as [rc [mt ms]] eqn:Hhdr.
  unfold Broad.parseStreamFormat, Narrow.parseStreamFormat, Trace.value,
    Trace.events.
  rewrite (broad_traced_cases _ g _ _ _ Hhdr),
    (narrow_traced_cases _ g _ _ _ Hhdr).
  destruct (exit_of rc mt ms); cbn [fst snd In];
    try (intros [H | [H | []]]; discriminate).
  intros [H | [H | [H | [H | []]]]]; try discriminate.
  injection H as <- <-.
  rewrite (proj1 (assign_format_geometry _ _)),
    (proj1 (proj2 (assign_format_geometry _ _))).
  repeat split.
Qed.

Lemma X11_logged_dimensions_are_returned_witness :
  Broad.width
    (Broad.parseStreamFormat
       (server_response 4 SPA_VIDEO_FORMAT_BGRA 1920 1080 (SPA_FRACTION 60 1))
       stack_junk) = 1920.
Proof.
  refine (proj1 (X11_logged_dimensions_are_returned
                   (server_response 4 SPA_VIDEO_FORMAT_BGRA 1920 1080
                      (SPA_FRACTION 60 1))
                   stack_junk 1920 1080 _)).
  cbn. tauto.
Defined.

(** *** X12 *)

Lemma exit_of_at_end (rc mt ms : Z) :
  exit_of rc mt ms = At_end ->
  0 <= rc /\ mt = SPA_MEDIA_TYPE_video /\ ms = SPA_MEDIA_SUBTYPE_raw.
Proof.
  unfold exit_of.
  destruct (Z.ltb_spec rc 0); [discriminate|].
  destruct (Z.eqb_spec mt SPA_MEDIA_TYPE_video); [|discriminate].
  destruct (Z.eqb_spec ms SPA_MEDIA_SUBTYPE_raw); [|discriminate].
  now intros _.
Qed.

(** X12: a result other than the zero StreamFormat, from either parser,
    certifies the input: the header parse returned 2 with media type video
    and media subtype raw, on a Format object that has both header
    properties. *)
Theorem X12_nonzero_result_certifies_video_raw
        (param : spa_pod) (g : spa_video_info_raw) :
  Broad.parseStreamFormat param g <> Broad.result_init \/
  Narrow.parseStreamFormat param g <> Narrow.result_init ->
  spa_format_parse param (0, 0)
    = (2, (SPA_MEDIA_TYPE_video, SPA_MEDIA_SUBTYPE_raw)) /\
  exists id props,
    param = Pod_Object SPA_TYPE_OBJECT_Format id props /\
    In SPA_FORMAT_mediaType (keys props) /\
    In SPA_FORMAT_mediaSubtype (keys props).
Proof.
  destruct (spa_format_parse param (0, 0)) as [rc [mt ms]] eqn:Hhdr.
  unfold Broad.parseStreamFormat, Narrow.parseStreamFormat, Trace.value.
  rewrite (broad_traced_cases _ g _ _ _ Hhdr),
    (narrow_traced_cases _ g _ _ _ Hhdr).
  destruct (exit_of rc mt ms) eqn:Hexit; cbn [snd];
    try (intros [H | H]; exfalso; apply H; reflexivity).
  intros _. apply exit_of_at_end in Hexit as (Hrc & -> & ->).
  destruct (format_parse_outcomes param (0, 0)) as [[H2 Hobj] | [Hneg _]];
    rewrite Hhdr in *; cbn [fst] in *.
  - subst rc. split; [reflexivity | exact Hobj].
  - exfalso. cbn [In] in Hneg.
    destruct Hneg as [<- | [<- | [<- | []]]]; cbn in Hrc; lia.
Qed.

Lemma X12_nonzero_result_certifies_video_raw_witness :
  spa_format_parse
    (server_response 4 SPA_VIDEO_FORMAT_BGR 800 600 (SPA_FRACTION 30 1))
    (0, 0)
  = (2, (SPA_MEDIA_TYPE_video, SPA_MEDIA_SUBTYPE_raw)).
Proof.
  refine (proj1 (X12_nonzero_result_certifies_video_raw
                   (server_response 4 SPA_VIDEO_FORMAT_BGR 800 600
                      (SPA_FRACTION 30 1))
                   stack_junk _)).
  left. discriminate.
Defined.
